(** * Provider unification layer of voyager-cli: model table, content
      flattening, provider adapters, stream normalizer and factory.

    A shallow embedding of
      packages/core/src/core/apiModelMapping.ts
      packages/core/src/core/apiContentGenerator.ts
      packages/core/src/core/openaiContentGenerator.ts
      packages/core/src/core/anthropicContentGenerator.ts
      packages/core/src/core/contentGenerator.ts
    A JavaScript string is a [string]: one [ascii] stands for one code
    unit, so [String.length] is the [.length] of the source.  A promise
    that rejects is an [Err] carrying the message of the thrown Error. *)

From Stdlib Require Import String Ascii List Bool ZArith Lia.
Import ListNotations.
Open Scope string_scope.

(** ** Results of fallible code *)

Inductive Result (A : Type) : Type :=
| Ok (a : A)
| Err (message : string).
Arguments Ok {A} a.
Arguments Err {A} message.

Definition is_err {A} (r : Result A) : bool :=
  match r with Ok _ => false | Err _ => true end.

(** ** The string operations of the language the source relies on *)

Module Js.

Definition LF : ascii := "010"%char.

(** [sep.join(xs)] of an array of strings. *)
Fixpoint join (sep : string) (xs : list string) : string :=
  match xs with
  | [] => ""
  | [x] => x
  | x :: rest => x ++ sep ++ join sep rest
  end.

(** Array.prototype.join turns an undefined element into the empty
    string. *)
Definition str_of_undefined (o : option string) : string :=
  match o with Some s => s | None => "" end.

(** [s.split('\n')]: never empty, one more piece than line feeds. *)
Fixpoint split_lf (s : string) : list string :=
  match s with
  | EmptyString => [""]
  | String c rest =>
      if Ascii.eqb c LF then "" :: split_lf rest
      else match split_lf rest with
           | piece :: pieces => String c piece :: pieces
           | [] => [String c ""]
           end
  end.

(** [s.startsWith(p)]. *)
Definition startsWith (p s : string) : bool := String.prefix p s.

(** [s.slice(n)] for [0 <= n]. *)
Definition slice (n : nat) (s : string) : string :=
  String.substring n (String.length s - n) s.

(** White space and line terminators removed by [trim], among the
    code units a [string] holds: TAB, LF, VT, FF, CR, SP, NBSP. *)
Definition isWhiteSpace (c : ascii) : bool :=
  let n := nat_of_ascii c in
  (((9 <=? n) && (n <=? 13)) || (n =? 32) || (n =? 160))%nat.

Fixpoint trimStart (s : string) : string :=
  match s with
  | EmptyString => ""
  | String c rest => if isWhiteSpace c then trimStart rest else s
  end.

(** Drops the trailing white space: a character stays when it is not
    white space or something after it stays. *)
Fixpoint trimEnd (s : string) : string :=
  match s with
  | EmptyString => ""
  | String c rest =>
      match trimEnd rest with
      | EmptyString => if isWhiteSpace c then "" else String c ""
      | kept => String c kept
      end
  end.

Definition trim (s : string) : string := trimEnd (trimStart s).

(** Truthiness of a string: only the empty string is falsy. *)
Definition truthy (s : string) : bool :=
  match s with EmptyString => false | _ => true end.

(** [s || d] on strings. *)
Definition or_else (s d : string) : string :=
  if truthy s then s else d.

(** [`${x}`] of a possibly undefined string. *)
Definition template (o : option string) : string :=
  match o with Some s => s | None => "undefined" end.

End Js.

(** ** apiModelMapping.ts *)

Module ModelMapping.

Inductive Provider := openai | anthropic | google.

Record ModelMapping := mkMapping {
  internal : string;
  api : string;
  provider : Provider
}.

Definition API_MODEL_MAPPINGS : list ModelMapping := [
  (* OpenAI models *)
  mkMapping "gpt-4o" "gpt-4o" openai;
  mkMapping "gpt-4o-mini" "gpt-4o-mini" openai;
  mkMapping "gpt-4-turbo" "gpt-4-turbo" openai;
  mkMapping "gpt-3.5-turbo" "gpt-3.5-turbo" openai;
  (* Anthropic models *)
  mkMapping "claude-opus-4-1" "claude-opus-4-1-20250805" anthropic;
  mkMapping "claude-opus-4-0" "claude-opus-4-20250514" anthropic;
  mkMapping "claude-sonnet-4-0" "claude-sonnet-4-20250514" anthropic;
  mkMapping "claude-3-7-sonnet-latest" "claude-3-7-sonnet-20250219" anthropic;
  mkMapping "claude-3-5-haiku-latest" "claude-3-5-haiku-20241022" anthropic;
  (* Google models *)
  mkMapping "gemini-2.5-pro" "gemini-2.5-pro" google;
  mkMapping "gemini-1.5-pro" "gemini-1.5-pro" google;
  mkMapping "gemini-1.5-flash" "gemini-1.5-flash" google;
  mkMapping "gemini-pro" "gemini-pro" google;
  (* Legacy Gemini models *)
  mkMapping "gemini-2.5-flash" "gemini-1.5-flash" google;
  mkMapping "gemini-2.5-flash-lite" "gemini-1.5-flash" google
].

Definition mapToApiModel (internalModel : string) : string :=
  match find (fun m => internal m =? internalModel) API_MODEL_MAPPINGS with
  | Some mapping => api mapping
  | None => internalModel
  end.

Definition mapFromApiModel (apiModel : string) : string :=
  match find (fun m => api m =? apiModel) API_MODEL_MAPPINGS with
  | Some mapping => internal mapping
  | None => apiModel
  end.

Definition getModelProvider (modelName : string) : option Provider :=
  let mapping :=
    match find (fun m => internal m =? modelName) API_MODEL_MAPPINGS with
    | Some m => Some m
    | None => find (fun m => api m =? modelName) API_MODEL_MAPPINGS
    end in
  match mapping with
  | Some m => Some (provider m)
  | None => None
  end.

Definition Provider_eqb (p q : Provider) : bool :=
  match p, q with
  | openai, openai | anthropic, anthropic | google, google => true
  | _, _ => false
  end.

Definition getModelsForProvider (p : Provider) : list ModelMapping :=
  filter (fun m => Provider_eqb (provider m) p) API_MODEL_MAPPINGS.

Definition isModelSupported (modelName : string) : bool :=
  existsb (fun m => (internal m =? modelName) || (api m =? modelName))
          API_MODEL_MAPPINGS.

(** The entries the table marks as legacy. *)
Definition legacy_alias (m : string) : Prop :=
  m = "gemini-2.5-flash" \/ m = "gemini-2.5-flash-lite".

(** An id that no entry carries, neither as internal nor as api id. *)
Definition unregistered (x : string) : Prop :=
  forall e, In e API_MODEL_MAPPINGS -> internal e <> x /\ api e <> x.

End ModelMapping.

(** ** The canonical vocabulary (the parts of @google/genai the adapters
       build and read) *)

Module Genai.

(** A part of a content; only its text is read or written here.  A part
    that carries something else has no text. *)
Record Part := mkPart { text : option string }.

Record Content := mkContent {
  role : option string;
  parts : option (list Part)
}.

(** One entry of an array of contents: a string, a content or a bare
    part (which has neither [role] nor [parts]). *)
Inductive Entry :=
| EString (s : string)
| EContent (c : Content)
| EPart (p : Part).

(** ContentListUnion: a string, an array, or a single object. *)
Inductive Contents :=
| CString (s : string)
| CArray (entries : list Entry)
| CContent (c : Content)
| CPart (p : Part).

(** The members of the FinishReason enum. *)
Inductive FinishReason :=
| FINISH_REASON_UNSPECIFIED
| STOP
| MAX_TOKENS
| SAFETY
| RECITATION
| LANGUAGE
| OTHER
| BLOCKLIST
| PROHIBITED_CONTENT
| SPII
| MALFORMED_FUNCTION_CALL
| IMAGE_SAFETY.

Record Candidate := mkCandidate {
  content : Content;
  finishReason : FinishReason
}.

Record UsageMetadata := mkUsage {
  promptTokenCount : Z;
  candidatesTokenCount : Z;
  totalTokenCount : Z
}.

(** [new GenerateContentResponse()] leaves every field undefined. *)
Record GenerateContentResponse := mkResponse {
  candidates : option (list Candidate);
  usageMetadata : option UsageMetadata
}.

Record CountTokensResponse := mkCount { totalTokens : Z }.

(** The numbers of an embedding are never inspected by the adapters. *)
Record ContentEmbedding := mkEmbedding { values : list Z }.

Record EmbedContentResponse := mkEmbed {
  embeddings : list ContentEmbedding
}.

(** [parts?.map((part) => part.text).join(' ') || ''] of the [parts] field of
    an array entry; every adapter spells this expression out. *)
Definition partsText (ps : option (list Part)) : string :=
  match ps with
  | None => ""
  | Some l =>
      Js.or_else (Js.join " " (map (fun part => Js.str_of_undefined (text part)) l)) ""
  end.

(** The [parts] field as property access finds it on an entry that is
    not a string. *)
Definition entryParts (e : Entry) : option (list Part) :=
  match e with
  | EContent c => parts c
  | _ => None
  end.

Definition entryRole (e : Entry) : option string :=
  match e with
  | EContent c => role c
  | _ => None
  end.

(** The candidate every adapter builds: one text part, role 'model'. *)
Definition modelCandidate (t : string) (r : FinishReason) : Candidate :=
  mkCandidate (mkContent (Some "model") (Some [mkPart (Some t)])) r.

(** [Math.ceil(n / 4)] on a length: the quotient is exact in a double, so
    the integer ceiling of the rational is what the source computes. *)
Definition ceil_quarter (n : nat) : Z := - ((- Z.of_nat n) / 4).

End Genai.

(** ** Transport calls and the effect of an adapter operation *)

Module Eff.

Inductive Role := user | assistant.

Record Message := mkMessage { mrole : Role; mcontent : string }.

(** What leaves the process. *)
Inductive Call :=
| Fetch (url : string) (bearer : string) (message model_name : string)
        (stream : bool)
| ChatCompletionsCreate (model : string) (messages : list Message)
| MessagesCreate (model : string) (messages : list Message)
| EmbeddingsCreate (model : string) (input : string).

(** An operation: the transport calls it made, in order, and how it
    ended. *)
Definition M (A : Type) : Type := (list Call * Result A)%type.

Definition ret {A} (a : A) : M A := ([], Ok a).
Definition throw {A} (e : string) : M A := ([], Err e).
Definition bind {A B} (m : M A) (f : A -> M B) : M B :=
  match m with
  | (t, Ok a) => let (t', r) := f a in ((t ++ t')%list, r)
  | (t, Err e) => (t, Err e)
  end.

(** [await transport(...)]: the call is logged, the reply is the
    transport's. *)
Definition call {A} (c : Call) (reply : Result A) : M A := ([c], reply).

(** [try { m } catch (error) { throw new Error(prefix + error.message) }] *)
Definition rethrow {A} (prefix : string) (m : M A) : M A :=
  match m with
  | (t, Err e) => (t, Err (prefix ++ e))
  | done => done
  end.

Definition calls {A} (m : M A) : list Call := fst m.
Definition outcome {A} (m : M A) : Result A := snd m.

End Eff.

Notation "x <- m ;; k" := (Eff.bind m (fun x => k))
  (at level 61, m at next level, right associativity).

(** ** apiContentGenerator.ts: the generic gateway adapter *)

Module Api.
Import Genai.

Record ChatApiRequest := mkRequest {
  message : string;
  model_name : string;
  stream : bool
}.

Inductive Mode := gateway | byok | byog.

Record Metadata := mkMetadata {
  response_time_ms : option Z;
  tokens_used : option Z
}.

Record ChatApiResponse := mkApiResponse {
  rmessage : string;
  rmodel_name : string;
  mode : Mode;
  metadata : option Metadata
}.

(** The shape [JSON.parse(...) as ChatStreamChunk] is read at. *)
Record ChatStreamChunk := mkChunk {
  chunk : string;
  finished : bool
}.

(** [response.body.getReader()]: the decoded blocks [read()] resolves
    to, in order, then [done], or a rejection after the last block.
    The decoder runs in streaming mode, so the decoded blocks
    concatenate to the decoded text of the whole body. *)
Record Reader := mkReader {
  reads : list string;
  failure : option string
}.

(** [status] is the status code as a template literal prints it;
    [bodyText] is what [response.text()] resolves to and [json] what
    [response.json()] settles to. *)
Record HttpResponse := mkHttp {
  ok : bool;
  status : string;
  statusText : string;
  bodyText : string;
  json : Result ChatApiResponse;
  body : option Reader
}.

Record ApiContentGenerator := mkGenerator {
  apiEndpoint : string;
  authToken : string;
  model : string
}.

(** What iterating a generator to its end shows: the values yielded,
    the error that ended it if one did, and whether the reader lock was
    released. *)
Record Stream := mkStream {
  yielded : list GenerateContentResponse;
  thrown : option string;
  released : bool;
  requested : list Eff.Call
}.

Definition convertContentsToMessage (contents : Contents) : string :=
  match contents with
  | CString s => s
  | CArray entries =>
      Js.join " "
        (map (fun content =>
                match content with
                | EString s => s
                | _ => partsText (entryParts content)
                end) entries)
  | _ => ""
  end.

Definition extractTextFromContents (contents : Contents) : string :=
  convertContentsToMessage contents.

(** [response.metadata?.tokens_used] *)
Definition metadata_tokens_used (response : ChatApiResponse) : option Z :=
  match metadata response with
  | Some md => tokens_used md
  | None => None
  end.

Definition convertApiResponseToGemini (response : ChatApiResponse)
  : GenerateContentResponse :=
  let candidates := Some [modelCandidate (rmessage response) STOP] in
  match metadata_tokens_used response with
  | Some used =>
      (* a number is truthy when it is not zero *)
      if (used =? 0)%Z then mkResponse candidates None
      else mkResponse candidates (Some (mkUsage 0 used used))
  | None => mkResponse candidates None
  end.

Section Transport.

(** [fetch(url, { method: 'POST', headers, body })]. *)
Variable fetch : Eff.Call -> Result HttpResponse.

(** [JSON.parse(payload) as ChatStreamChunk]; [None] when the parse or
    the reading of the parsed value throws. *)
Variable JSON_parse : string -> option ChatStreamChunk.

Definition makeApiRequest (g : ApiContentGenerator) (endpoint : string)
           (data : ChatApiRequest) : Eff.M ChatApiResponse :=
  let request := Eff.Fetch (apiEndpoint g ++ endpoint) (authToken g)
                           (message data) (model_name data) (stream data) in
  response <- Eff.call request (fetch request) ;;
  if negb (ok response)
  then Eff.throw ("API request failed: " ++ status response ++ " "
                    ++ statusText response ++ " - " ++ bodyText response)
  else ([], json response).

Definition generateContent (g : ApiContentGenerator) (contents : Contents)
  : Eff.M GenerateContentResponse :=
  Eff.rethrow "API content generation error: "
    (let message := convertContentsToMessage contents in
     let apiRequest :=
       mkRequest message (ModelMapping.mapToApiModel (model g)) false in
     response <- makeApiRequest g "/api/chat/send" apiRequest ;;
     Eff.ret (convertApiResponseToGemini response)).

Definition countTokens (g : ApiContentGenerator) (contents : Contents)
  : Eff.M CountTokensResponse :=
  Eff.rethrow "API token counting error: "
    (let message := convertContentsToMessage contents in
     let estimatedTokens := ceil_quarter (String.length message) in
     Eff.ret (mkCount estimatedTokens)).

Definition embedContent (g : ApiContentGenerator) (contents : Contents)
  : Eff.M EmbedContentResponse :=
  Eff.rethrow "API embedding error: "
    (let text := extractTextFromContents contents in
     if negb (Js.truthy (Js.trim text))
     then Eff.throw "No content provided for embedding"
     else Eff.ret (mkEmbed [mkEmbedding []])).

(** The body of the [for (const line of lines)] loop: what one
    complete line yields. *)
Definition processLine (line : string) : list GenerateContentResponse :=
  if Js.trim line =? "" then []
  else if Js.startsWith "data: " line then
    match JSON_parse (Js.slice 6 line) with
    | Some data =>
        if Js.truthy (chunk data)
        then [mkResponse
                (Some [modelCandidate (chunk data)
                         (if finished data then STOP
                          else FINISH_REASON_UNSPECIFIED)])
                None]
        else []
    | None => []
    end
  else [].

(** The [while (true)] loop over [reader.read()]. *)
Fixpoint readLoop (buffer : string) (blocks : list string)
  : list GenerateContentResponse :=
  match blocks with
  | [] => []
  | value :: rest =>
      let buffer1 := buffer ++ value in
      let lines := Js.split_lf buffer1 in
      let buffer2 := Js.or_else (last lines "") "" in
      (flat_map processLine (removelast lines) ++ readLoop buffer2 rest)%list
  end.

Definition convertApiStreamToGemini (g : ApiContentGenerator)
           (apiRequest : ChatApiRequest) : Stream :=
  let request := Eff.Fetch (apiEndpoint g ++ "/api/chat/stream") (authToken g)
                           (message apiRequest) (model_name apiRequest)
                           (stream apiRequest) in
  match fetch request with
  | Err e => mkStream [] (Some e) false [request]
  | Ok response =>
      if negb (ok response)
      then mkStream []
             (Some ("API stream request failed: " ++ status response ++ " "
                      ++ statusText response ++ " - " ++ bodyText response))
             false [request]
      else match body response with
           | None =>
               mkStream [] (Some "No response body reader available")
                        false [request]
           | Some reader =>
               mkStream (readLoop "" (reads reader)) (failure reader)
                        true [request]
           end
  end.

(** The generator object is returned before its body runs, so the
    [catch] of this method never sees a transport error. *)
Definition generateContentStream (g : ApiContentGenerator)
           (contents : Contents) : Stream :=
  let message := convertContentsToMessage contents in
  let apiRequest :=
    mkRequest message (ModelMapping.mapToApiModel (model g)) true in
  convertApiStreamToGemini g apiRequest.

End Transport.

Definition getModel (g : ApiContentGenerator) : string := model g.

End Api.

(** ** Native usage counters: numbers that may be absent *)

Module Counter.

(** [n || 0] for a counter that may be undefined or, after an addition
    with an undefined operand, NaN (both [None]). *)
Definition or_zero (o : option Z) : Z :=
  match o with
  | Some n => if (n =? 0)%Z then 0%Z else n
  | None => 0%Z
  end.

(** [a + b]: NaN as soon as one operand is undefined. *)
Definition add (a b : option Z) : option Z :=
  match a, b with
  | Some x, Some y => Some (x + y)%Z
  | _, _ => None
  end.

End Counter.

(** ** openaiContentGenerator.ts *)

Module OpenAI.
Import Genai.

Record ChoiceMessage := mkChoiceMessage { mcontent : option string }.

Record Choice := mkChoice {
  cmessage : option ChoiceMessage;
  finish_reason : option string
}.

Record Usage := mkNativeUsage {
  prompt_tokens : option Z;
  completion_tokens : option Z;
  total_tokens : option Z
}.

(** The fields of a chat completion the adapter reads, each optional
    as the optional chaining of the source allows. *)
Record ChatCompletion := mkCompletion {
  choices : option (list Choice);
  usage : option Usage
}.

Record OpenAIContentGenerator := mkGenerator {
  apiKey : string;
  model : string
}.

Definition convertGeminiMessagesToOpenAI (contents : Contents)
  : list Eff.Message :=
  match contents with
  | CString s => [Eff.mkMessage Eff.user s]
  | CArray entries =>
      map (fun content =>
             match content with
             | EString s => Eff.mkMessage Eff.user s
             | _ =>
                 let role :=
                   match entryRole content with
                   | Some r => if r =? "user" then Eff.user else Eff.assistant
                   | None => Eff.assistant
                   end in
                 let text := partsText (entryParts content) in
                 Eff.mkMessage role text
             end) entries
  | _ => []
  end.

Definition extractTextFromContents (contents : Contents) : string :=
  match contents with
  | CString s => s
  | CArray entries =>
      Js.join " "
        (map (fun content =>
                match content with
                | EString s => s
                | _ => partsText (entryParts content)
                end) entries)
  | _ => ""
  end.

Definition convertFinishReason (reason : option string) : FinishReason :=
  match reason with
  | Some r =>
      if r =? "stop" then STOP
      else if r =? "length" then MAX_TOKENS
      else if r =? "content_filter" then SAFETY
      else FINISH_REASON_UNSPECIFIED
  | None => FINISH_REASON_UNSPECIFIED
  end.

(** [response.choices?.[0]] *)
Definition firstChoice (response : ChatCompletion) : option Choice :=
  match choices response with
  | Some (c :: _) => Some c
  | _ => None
  end.

Definition usageField (f : Usage -> option Z) (response : ChatCompletion)
  : option Z :=
  match usage response with
  | Some u => f u
  | None => None
  end.

Definition convertOpenAIResponseToGemini (response : ChatCompletion)
  : GenerateContentResponse :=
  let content :=
    Js.or_else
      (Js.str_of_undefined
         (match firstChoice response with
          | Some c => match cmessage c with
                      | Some m => mcontent m
                      | None => None
                      end
          | None => None
          end)) "" in
  let reason :=
    match firstChoice response with
    | Some c => finish_reason c
    | None => None
    end in
  mkResponse
    (Some [modelCandidate content (convertFinishReason reason)])
    (Some (mkUsage (Counter.or_zero (usageField prompt_tokens response))
                   (Counter.or_zero (usageField completion_tokens response))
                   (Counter.or_zero (usageField total_tokens response)))).

Section Transport.

(** [openai.chat.completions.create(...)]; the generation parameters
    are forwarded untouched and left out of the logged call. *)
Variable create : Eff.Call -> Result ChatCompletion.

Definition generateContent (g : OpenAIContentGenerator)
           (contents : Contents) : Eff.M GenerateContentResponse :=
  Eff.rethrow "OpenAI API error: "
    (let messages := convertGeminiMessagesToOpenAI contents in
     let request := Eff.ChatCompletionsCreate (model g) messages in
     response <- Eff.call request (create request) ;;
     Eff.ret (convertOpenAIResponseToGemini response)).

Definition countTokens (g : OpenAIContentGenerator)
           (contents : Contents) : Eff.M CountTokensResponse :=
  Eff.rethrow "OpenAI token counting error: "
    (let messages := convertGeminiMessagesToOpenAI contents in
     let text := Js.join " " (map Eff.mcontent messages) in
     let estimatedTokens := ceil_quarter (String.length text) in
     Eff.ret (mkCount estimatedTokens)).

End Transport.

(** The fields of a streamed completion chunk the adapter reads. *)
Record Delta := mkDelta { dcontent : option string }.

Record StreamChoice := mkStreamChoice {
  delta : option Delta;
  sfinish_reason : option string
}.

Record CompletionChunk := mkCompletionChunk {
  schoices : option (list StreamChoice)
}.

(** An async iterable of the SDK: the chunks it delivers, in order, then
    its end or a rejection after the last chunk. *)
Record NativeStream := mkNativeStream {
  chunks : list CompletionChunk;
  sfailure : option string
}.

(** What iterating the adapter's generator to its end shows. *)
Record Generated := mkGenerated {
  yielded : list GenerateContentResponse;
  thrown : option string
}.

(** [chunk.choices?.[0]] *)
Definition firstStreamChoice (chunk : CompletionChunk) : option StreamChoice :=
  match schoices chunk with
  | Some (c :: _) => Some c
  | _ => None
  end.

(** The body of the [for await] loop: what one chunk yields. *)
Definition chunkToGemini (chunk : CompletionChunk)
  : list GenerateContentResponse :=
  let content :=
    Js.or_else
      (Js.str_of_undefined
         (match firstStreamChoice chunk with
          | Some c => match delta c with
                      | Some d => dcontent d
                      | None => None
                      end
          | None => None
          end)) "" in
  if Js.truthy content
  then [mkResponse
          (Some [modelCandidate content
                   (convertFinishReason
                      (match firstStreamChoice chunk with
                       | Some c => sfinish_reason c
                       | None => None
                       end))])
          None]
  else [].

Definition convertOpenAIStreamToGemini (stream : NativeStream) : Generated :=
  mkGenerated (flat_map chunkToGemini (chunks stream)) (sfailure stream).

(** The fields of an embeddings reply the adapter reads. *)
Record EmbeddingData := mkEmbeddingData { embedding : option (list Z) }.

Record EmbeddingResponse := mkEmbeddingResponse { data : list EmbeddingData }.

Section Streaming.

(** [openai.chat.completions.create({ ..., stream: true })], on the model
    and the messages. *)
Variable createStream : string -> list Eff.Message -> Result NativeStream.

(** The stream is awaited inside the [try]; the generator made of it
    runs after the method has returned. *)
Definition generateContentStream (g : OpenAIContentGenerator)
           (contents : Contents) : Result Generated :=
  match createStream (model g) (convertGeminiMessagesToOpenAI contents) with
  | Ok stream => Ok (convertOpenAIStreamToGemini stream)
  | Err e => Err ("OpenAI API error: " ++ e)
  end.

End Streaming.

Section Embeddings.

(** [openai.embeddings.create(...)] *)
Variable createEmbedding : Eff.Call -> Result EmbeddingResponse.

Definition embedContent (g : OpenAIContentGenerator) (contents : Contents)
  : Eff.M EmbedContentResponse :=
  Eff.rethrow "OpenAI embedding error: "
    (let text := extractTextFromContents contents in
     let request := Eff.EmbeddingsCreate "text-embedding-3-small" text in
     response <- Eff.call request (createEmbedding request) ;;
     Eff.ret (mkEmbed
                [mkEmbedding
                   (match data response with
                    | d :: _ => match embedding d with
                                | Some v => v
                                | None => []
                                end
                    | [] => []
                    end)])).

End Embeddings.

Definition getModel (g : OpenAIContentGenerator) : string := model g.

End OpenAI.

(** ** anthropicContentGenerator.ts *)

Module Anthropic.
Import Genai.

Record Block := mkBlock { btext : option string }.

Record Usage := mkNativeUsage {
  input_tokens : option Z;
  output_tokens : option Z
}.

(** The fields of a message reply the adapter reads. *)
Record MessageReply := mkReply {
  rcontent : option (list Block);
  stop_reason : option string;
  usage : option Usage
}.

Record AnthropicContentGenerator := mkGenerator {
  apiKey : string;
  model : string
}.

Definition convertGeminiMessagesToAnthropic (contents : Contents)
  : list Eff.Message :=
  match contents with
  | CString s => [Eff.mkMessage Eff.user s]
  | CArray entries =>
      map (fun content =>
             match content with
             | EString s => Eff.mkMessage Eff.user s
             | _ =>
                 let role :=
                   match entryRole content with
                   | Some r => if r =? "user" then Eff.user else Eff.assistant
                   | None => Eff.assistant
                   end in
                 let text := partsText (entryParts content) in
                 Eff.mkMessage role text
             end) entries
  | _ => []
  end.

Definition extractTextFromContents (contents : Contents) : string :=
  match contents with
  | CString s => s
  | CArray entries =>
      Js.join " "
        (map (fun content =>
                match content with
                | EString s => s
                | _ => partsText (entryParts content)
                end) entries)
  | _ => ""
  end.

Definition convertFinishReason (reason : option string) : FinishReason :=
  match reason with
  | Some r =>
      if r =? "end_turn" then STOP
      else if r =? "max_tokens" then MAX_TOKENS
      else if r =? "stop_sequence" then STOP
      else FINISH_REASON_UNSPECIFIED
  | None => FINISH_REASON_UNSPECIFIED
  end.

Definition usageField (f : Usage -> option Z) (response : MessageReply)
  : option Z :=
  match usage response with
  | Some u => f u
  | None => None
  end.

Definition convertAnthropicResponseToGemini (response : MessageReply)
  : GenerateContentResponse :=
  let content :=
    Js.or_else
      (Js.str_of_undefined
         (match rcontent response with
          | Some (b :: _) => btext b
          | _ => None
          end)) "" in
  mkResponse
    (Some [modelCandidate content (convertFinishReason (stop_reason response))])
    (Some (mkUsage
             (Counter.or_zero (usageField input_tokens response))
             (Counter.or_zero (usageField output_tokens response))
             (Counter.or_zero
                (Counter.add (usageField input_tokens response)
                             (usageField output_tokens response))))).

Section Transport.

(** [anthropic.messages.create(...)]; the generation parameters are
    forwarded untouched and left out of the logged call. *)
Variable create : Eff.Call -> Result MessageReply.

Definition generateContent (g : AnthropicContentGenerator)
           (contents : Contents) : Eff.M GenerateContentResponse :=
  Eff.rethrow "Anthropic API error: "
    (let messages := convertGeminiMessagesToAnthropic contents in
     let request := Eff.MessagesCreate (model g) messages in
     response <- Eff.call request (create request) ;;
     Eff.ret (convertAnthropicResponseToGemini response)).

Definition countTokens (g : AnthropicContentGenerator)
           (contents : Contents) : Eff.M CountTokensResponse :=
  Eff.rethrow "Anthropic token counting error: "
    (let messages := convertGeminiMessagesToAnthropic contents in
     let text := Js.join " " (map Eff.mcontent messages) in
     let estimatedTokens := ceil_quarter (String.length text) in
     Eff.ret (mkCount estimatedTokens)).

Definition embedContent (g : AnthropicContentGenerator)
           (contents : Contents) : Eff.M EmbedContentResponse :=
  Eff.rethrow "Anthropic embedding error: "
    (let text := extractTextFromContents contents in
     if negb (Js.truthy (Js.trim text))
     then Eff.throw "No content provided for embedding"
     else Eff.ret (mkEmbed [mkEmbedding []])).

End Transport.

(** The fields of a stream event the adapter reads. *)
Record TextDelta := mkTextDelta { dtext : option string }.

Record StreamEvent := mkEvent {
  etype : string;
  edelta : option TextDelta;
  estop_reason : option string
}.

(** An async iterable of the SDK: the events it delivers, in order, then
    its end or a rejection after the last event. *)
Record NativeStream := mkNativeStream {
  events : list StreamEvent;
  sfailure : option string
}.

(** What iterating the adapter's generator to its end shows. *)
Record Generated := mkGenerated {
  yielded : list GenerateContentResponse;
  thrown : option string
}.

(** The body of the [for await] loop: what one event yields. *)
Definition eventToGemini (chunk : StreamEvent) : list GenerateContentResponse :=
  if etype chunk =? "content_block_delta"
  then
    let content :=
      Js.or_else
        (Js.str_of_undefined
           (match edelta chunk with
            | Some d => dtext d
            | None => None
            end)) "" in
    if Js.truthy content
    then [mkResponse
            (Some [modelCandidate content
                     (convertFinishReason (estop_reason chunk))])
            None]
    else []
  else [].

Definition convertAnthropicStreamToGemini (stream : NativeStream) : Generated :=
  mkGenerated (flat_map eventToGemini (events stream)) (sfailure stream).

Section Streaming.

(** [anthropic.messages.create({ ..., stream: true })], on the model and
    the messages. *)
Variable createStream : string -> list Eff.Message -> Result NativeStream.

Definition generateContentStream (g : AnthropicContentGenerator)
           (contents : Contents) : Result Generated :=
  match createStream (model g) (convertGeminiMessagesToAnthropic contents) with
  | Ok stream => Ok (convertAnthropicStreamToGemini stream)
  | Err e => Err ("Anthropic API error: " ++ e)
  end.

End Streaming.

Definition getModel (g : AnthropicContentGenerator) : string := model g.

End Anthropic.

(** ** contentGenerator.ts: the factory *)

Module Factory.

Module AuthType.
Definition LOGIN_WITH_GOOGLE := "oauth-personal".
Definition USE_GEMINI := "gemini-api-key".
Definition USE_VERTEX_AI := "vertex-ai".
Definition CLOUD_SHELL := "cloud-shell".
Definition USE_OPENAI := "openai-api-key".
Definition USE_ANTHROPIC := "anthropic-api-key".
Definition USE_API := "api".
End AuthType.

Record ContentGeneratorConfig := mkConfig {
  apiKey : option string;
  vertexai : option bool;
  authType : option string;
  proxy : option string;
  openaiApiKey : option string;
  openaiModel : option string;
  anthropicApiKey : option string;
  anthropicModel : option string;
  apiEndpoint : option string;
  apiAuthToken : option string;
  apiModel : option string
}.

(** What the factory reads from the process and from [gcConfig]. *)
Record Ambient := mkAmbient {
  CLI_VERSION : option string;
  version : string;
  platform : string;
  arch : string;
  usageStatisticsEnabled : option bool;
  installationId : string
}.

Definition Headers := list (string * string).

(** The options handed to [new GoogleGenAI(...)]. *)
Record GoogleGenAIOptions := mkGoogle {
  gApiKey : option string;
  gVertexai : option bool;
  gHeaders : Headers
}.

(** Truthiness of an optional string: present and not empty. *)
Definition truthy (o : option string) : bool :=
  match o with
  | Some s => Js.truthy s
  | None => false
  end.

(** [o || d] *)
Definition or_default (o : option string) (d : string) : string :=
  match o with
  | Some s => Js.or_else s d
  | None => d
  end.

Definition tagged (o : option string) (tag : string) : bool :=
  match o with
  | Some s => s =? tag
  | None => false
  end.

(** The variables of [process.env] the configuration reads. *)
Record ProcessEnv := mkEnv {
  GEMINI_API_KEY : option string;
  GOOGLE_API_KEY : option string;
  GOOGLE_CLOUD_PROJECT : option string;
  GOOGLE_CLOUD_LOCATION : option string;
  OPENAI_API_KEY : option string;
  OPENAI_MODEL : option string;
  ANTHROPIC_API_KEY : option string;
  ANTHROPIC_MODEL : option string;
  API_ENDPOINT : option string;
  API_AUTH_TOKEN : option string;
  API_MODEL : option string
}.

(** [o || undefined] *)
Definition or_undefined (o : option string) : option string :=
  if truthy o then o else None.

(** [a || b] on optional strings. *)
Definition or_opt (a b : option string) : option string :=
  if truthy a then a else b.

Definition createContentGeneratorConfig (getProxy : option string)
           (authType : option string) (selectedModel : option string)
           (env : ProcessEnv) : ContentGeneratorConfig :=
  let geminiApiKey := or_undefined (GEMINI_API_KEY env) in
  let googleApiKey := or_undefined (GOOGLE_API_KEY env) in
  let googleCloudProject := or_undefined (GOOGLE_CLOUD_PROJECT env) in
  let googleCloudLocation := or_undefined (GOOGLE_CLOUD_LOCATION env) in
  let openaiApiKey := or_undefined (OPENAI_API_KEY env) in
  let openaiModel :=
    or_default (or_opt selectedModel (OPENAI_MODEL env)) "gpt-4o" in
  let anthropicApiKey := or_undefined (ANTHROPIC_API_KEY env) in
  let anthropicModel :=
    or_default (or_opt selectedModel (ANTHROPIC_MODEL env))
               "claude-3-5-sonnet-20241022" in
  let apiEndpoint := or_undefined (API_ENDPOINT env) in
  let apiAuthToken := or_undefined (API_AUTH_TOKEN env) in
  let apiModel :=
    or_default (or_opt selectedModel (API_MODEL env)) "gpt-4o" in
  let contentGeneratorConfig :=
    mkConfig None None authType getProxy None None None None None None None in
  let with_google (key : option string) (vertex : bool) :=
    mkConfig key (Some vertex) authType getProxy
             None None None None None None None in
  if tagged authType AuthType.LOGIN_WITH_GOOGLE
     || tagged authType AuthType.CLOUD_SHELL
  then contentGeneratorConfig
  else if tagged authType AuthType.USE_GEMINI && truthy geminiApiKey
  then with_google geminiApiKey false
  else if tagged authType AuthType.USE_VERTEX_AI
          && (truthy googleApiKey
              || (truthy googleCloudProject && truthy googleCloudLocation))
  then with_google googleApiKey true
  else if tagged authType AuthType.USE_OPENAI && truthy openaiApiKey
  then mkConfig None None authType getProxy
                openaiApiKey (Some openaiModel) None None None None None
  else if tagged authType AuthType.USE_ANTHROPIC && truthy anthropicApiKey
  then mkConfig None None authType getProxy
                None None anthropicApiKey (Some anthropicModel) None None None
  else if tagged authType AuthType.USE_API
          && truthy apiEndpoint && truthy apiAuthToken
  then mkConfig None None authType getProxy
                None None None None apiEndpoint apiAuthToken (Some apiModel)
  else contentGeneratorConfig.

(** The configuration that carries the authType and the proxy only. *)
Definition base (getProxy a : option string) : ContentGeneratorConfig :=
  mkConfig None None a getProxy None None None None None None None.

(** The credential [createContentGeneratorConfig] looks for before it
    fills a mode in is absent from the configuration ([USE_VERTEX_AI]
    can do without an API key, the two login modes need none). *)
Definition credential_missing (config : ContentGeneratorConfig) : bool :=
  if tagged (authType config) AuthType.USE_GEMINI
  then negb (truthy (apiKey config))
  else if tagged (authType config) AuthType.USE_OPENAI
  then negb (truthy (openaiApiKey config))
  else if tagged (authType config) AuthType.USE_ANTHROPIC
  then negb (truthy (anthropicApiKey config))
  else if tagged (authType config) AuthType.USE_API
  then negb (truthy (apiEndpoint config) && truthy (apiAuthToken config))
  else false.

(** The modes of the [AuthType] enum. *)
Definition recognized (a : option string) : bool :=
  tagged a AuthType.LOGIN_WITH_GOOGLE || tagged a AuthType.USE_GEMINI
  || tagged a AuthType.USE_VERTEX_AI || tagged a AuthType.CLOUD_SHELL
  || tagged a AuthType.USE_OPENAI || tagged a AuthType.USE_ANTHROPIC
  || tagged a AuthType.USE_API.

(** The adapter class each mode stands for. *)
Inductive AdapterKind :=
| KCodeAssist | KGoogleGenAI | KOpenAI | KAnthropic | KApi.

Definition adapter_of_mode (a : option string) : option AdapterKind :=
  if tagged a AuthType.LOGIN_WITH_GOOGLE || tagged a AuthType.CLOUD_SHELL
  then Some KCodeAssist
  else if tagged a AuthType.USE_GEMINI || tagged a AuthType.USE_VERTEX_AI
  then Some KGoogleGenAI
  else if tagged a AuthType.USE_OPENAI then Some KOpenAI
  else if tagged a AuthType.USE_ANTHROPIC then Some KAnthropic
  else if tagged a AuthType.USE_API then Some KApi
  else None.

Section Collaborators.

(** The generator the code-assist module builds. *)
Variable CodeAssistServer : Type.

(** [createCodeAssistContentGenerator(httpOptions, authType, gcConfig,
    sessionId)], declared in code_assist/codeAssist.ts. *)
Variable createCodeAssistContentGenerator :
  Headers -> string -> Result CodeAssistServer.

(** The concrete adapters; the client constructors of the SDKs are
    taken to succeed on the options they are given. *)
Inductive Adapter :=
| CodeAssist (server : CodeAssistServer)
| GoogleGenAIWrapper (client : GoogleGenAIOptions) (modelName : string)
| OpenAIContentGenerator (g : OpenAI.OpenAIContentGenerator)
| AnthropicContentGenerator (g : Anthropic.AnthropicContentGenerator)
| ApiContentGenerator (g : Api.ApiContentGenerator).

Inductive ContentGenerator :=
| LoggingContentGenerator (wrapped : Adapter).

Definition createContentGenerator (config : ContentGeneratorConfig)
           (env : Ambient) : Result ContentGenerator :=
  let version := or_default (CLI_VERSION env) (version env) in
  let userAgent :=
    "GeminiCLI/" ++ version ++ " (" ++ platform env ++ "; " ++ arch env ++ ")" in
  let baseHeaders : Headers := [("User-Agent", userAgent)] in
  if tagged (authType config) AuthType.LOGIN_WITH_GOOGLE
     || tagged (authType config) AuthType.CLOUD_SHELL
  then
    match createCodeAssistContentGenerator
            baseHeaders (Js.template (authType config)) with
    | Ok server => Ok (LoggingContentGenerator (CodeAssist server))
    | Err e => Err e
    end
  else if tagged (authType config) AuthType.USE_GEMINI
          || tagged (authType config) AuthType.USE_VERTEX_AI
  then
    let headers :=
      match usageStatisticsEnabled env with
      | Some true =>
          (baseHeaders
             ++ [("x-gemini-api-privileged-user-id", installationId env)])%list
      | _ => baseHeaders
      end in
    let googleGenAI :=
      mkGoogle (match apiKey config with
                | Some k => if k =? "" then None else Some k
                | None => None
                end)
               (vertexai config) headers in
    let modelName :=
      match vertexai config with
      | Some true => "vertex-ai"
      | _ => "gemini-2.5-pro"
      end in
    Ok (LoggingContentGenerator (GoogleGenAIWrapper googleGenAI modelName))
  else if tagged (authType config) AuthType.USE_OPENAI
  then
    match openaiApiKey config with
    | Some key =>
        if Js.truthy key
        then Ok (LoggingContentGenerator
                   (OpenAIContentGenerator
                      (OpenAI.mkGenerator key
                         (or_default (openaiModel config) "gpt-4o"))))
        else Err "OpenAI API key is required for OpenAI authentication"
    | None => Err "OpenAI API key is required for OpenAI authentication"
    end
  else if tagged (authType config) AuthType.USE_ANTHROPIC
  then
    match anthropicApiKey config with
    | Some key =>
        if Js.truthy key
        then Ok (LoggingContentGenerator
                   (AnthropicContentGenerator
                      (Anthropic.mkGenerator key
                         (or_default (anthropicModel config)
                                     "claude-3-5-sonnet-20241022"))))
        else Err "Anthropic API key is required for Anthropic authentication"
    | None => Err "Anthropic API key is required for Anthropic authentication"
    end
  else if tagged (authType config) AuthType.USE_API
  then
    match apiEndpoint config, apiAuthToken config with
    | Some endpoint, Some token =>
        if Js.truthy endpoint && Js.truthy token
        then Ok (LoggingContentGenerator
                   (ApiContentGenerator
                      (Api.mkGenerator endpoint token
                         (or_default (apiModel config) "gpt-4o"))))
        else Err "API endpoint and auth token are required for API-based authentication"
    | _, _ =>
        Err "API endpoint and auth token are required for API-based authentication"
    end
  else
    Err ("Error creating contentGenerator: Unsupported authType: "
           ++ Js.template (authType config)).

End Collaborators.

Arguments CodeAssist {CodeAssistServer} server.
Arguments GoogleGenAIWrapper {CodeAssistServer} client modelName.
Arguments OpenAIContentGenerator {CodeAssistServer} g.
Arguments AnthropicContentGenerator {CodeAssistServer} g.
Arguments ApiContentGenerator {CodeAssistServer} g.
Arguments LoggingContentGenerator {CodeAssistServer} wrapped.
Arguments createContentGenerator {CodeAssistServer} _ config env.

Definition kind {S : Type} (a : Adapter S) : AdapterKind :=
  match a with
  | CodeAssist _ => KCodeAssist
  | GoogleGenAIWrapper _ _ => KGoogleGenAI
  | OpenAIContentGenerator _ => KOpenAI
  | AnthropicContentGenerator _ => KAnthropic
  | ApiContentGenerator _ => KApi
  end.

Definition wrapped_adapter {S : Type} (g : ContentGenerator S) : Adapter S :=
  match g with LoggingContentGenerator a => a end.

End Factory.

(** ** The vocabulary of the specification *)

Module Spec.
Import Genai.

(** The text of one entry of a sequence: a string entry is its own
    text, any other entry is the texts of its parts with one space
    between them (a part without text counts as empty). *)
Definition entryText (e : Entry) : string :=
  match e with
  | EString s => s
  | EContent c =>
      match parts c with
      | Some ps =>
          String.concat " "
            (map (fun p => match text p with Some t => t | None => "" end) ps)
      | None => ""
      end
  | EPart _ => ""
  end.

(** flattenToText as section 4.2 words it. *)
Definition flattenToText (contents : Contents) : string :=
  match contents with
  | CString s => s
  | CArray entries => String.concat " " (map entryText entries)
  | CContent _ | CPart _ => ""
  end.

(** [t] is the ceiling of [n / 4]. *)
Definition is_ceil_quarter (t : Z) (n : nat) : Prop :=
  (4 * (t - 1) < Z.of_nat n <= 4 * t)%Z.

(** The estimate of section 4.3. *)
Definition estimate (contents : Contents) : Z :=
  ceil_quarter (String.length (flattenToText contents)).

(** [sub] occurs in [s]. *)
Fixpoint contains (sub s : string) : bool :=
  String.prefix sub s
  || match s with
     | EmptyString => false
     | String _ rest => contains sub rest
     end.

(** Zero-fill of a counter the provider omits. *)
Definition zero_fill (o : option Z) : Z :=
  match o with Some n => n | None => 0%Z end.

(** The four canonical finish reasons of section 3. *)
Definition canonical (r : FinishReason) : bool :=
  match r with
  | STOP | MAX_TOKENS | SAFETY | FINISH_REASON_UNSPECIFIED => true
  | _ => false
  end.

Definition NL : string := String Js.LF "".

Fixpoint has_lf (s : string) : bool :=
  match s with
  | EmptyString => false
  | String c rest => Ascii.eqb c Js.LF || has_lf rest
  end.

(** The text a line-framed transport carries for a sequence of lines:
    every line is closed by a line feed. *)
Fixpoint wire (lines : list string) : string :=
  match lines with
  | [] => ""
  | l :: rest => l ++ NL ++ wire rest
  end.

(** A frame as the gateway sends it: its payload, and the chunk text
    and terminal mark the payload stands for. *)
Record Frame := mkFrame {
  payload : string;
  delta : string;
  terminal : bool
}.

(** What the body of a stream is made of: frames and other lines. *)
Inductive Item :=
| Good (f : Frame)
| Other (line : string).

Definition frame_line (f : Frame) : string := "data: " ++ payload f.

Definition line_of (i : Item) : string :=
  match i with
  | Good f => frame_line f
  | Other l => l
  end.

(** The canonical chunk of a frame. *)
Definition chunk_of (f : Frame) : GenerateContentResponse :=
  mkResponse
    (Some [modelCandidate (delta f)
             (if terminal f then STOP else FINISH_REASON_UNSPECIFIED)])
    None.

Fixpoint chunks_of (items : list Item) : list GenerateContentResponse :=
  match items with
  | [] => []
  | Good f :: rest => chunk_of f :: chunks_of rest
  | Other _ :: rest => chunks_of rest
  end.

Section Parser.
Variable JSON_parse : string -> option Api.ChatStreamChunk.

(** A well-formed frame: one line whose payload parses to a non-empty
    chunk text and a terminal mark. *)
Definition well_formed (f : Frame) : Prop :=
  has_lf (payload f) = false
  /\ JSON_parse (payload f) = Some (Api.mkChunk (delta f) (terminal f))
  /\ Js.truthy (delta f) = true.

(** A malformed line: it has the frame prefix, its payload does not
    parse. *)
Definition malformed (line : string) : Prop :=
  has_lf line = false
  /\ Js.startsWith "data: " line = true
  /\ JSON_parse (Js.slice 6 line) = None.

(** A blank line, or a line without the frame prefix. *)
Definition unframed (line : string) : Prop :=
  has_lf line = false
  /\ (Js.trim line = "" \/ Js.startsWith "data: " line = false).

Definition admissible (i : Item) : Prop :=
  match i with
  | Good f => well_formed f
  | Other l => malformed l \/ unframed l
  end.
End Parser.

(** Every id of the table, internal ids first. *)
Definition all_ids : list string :=
  (map ModelMapping.internal ModelMapping.API_MODEL_MAPPINGS
     ++ map ModelMapping.api ModelMapping.API_MODEL_MAPPINGS)%list.

(** The text a canonical response carries: the texts of the parts of
    its candidates, one after the other. *)
Definition partTexts (ps : option (list Part)) : string :=
  match ps with
  | Some l => String.concat "" (map (fun p => Js.str_of_undefined (text p)) l)
  | None => ""
  end.

Definition responseText (r : GenerateContentResponse) : string :=
  match candidates r with
  | Some cs => String.concat "" (map (fun c => partTexts (parts (content c))) cs)
  | None => ""
  end.

(** The text of a run of chunks. *)
Definition streamText (rs : list GenerateContentResponse) : string :=
  String.concat "" (map responseText rs).

(** A chunk as every normalizer builds it: one candidate of role 'model'
    with one non-empty text part, a canonical finish reason, no usage. *)
Definition delta_chunk (r : GenerateContentResponse) : Prop :=
  exists t reason,
    r = mkResponse (Some [modelCandidate t reason]) None
    /\ Js.truthy t = true
    /\ canonical reason = true.

(** A chunk of the gateway stream: one candidate of role 'model' with
    one non-empty text part, the reason STOP or FINISH_REASON_UNSPECIFIED,
    no usage. *)
Definition gateway_chunk (r : GenerateContentResponse) : Prop :=
  exists t terminal,
    r = mkResponse
          (Some [modelCandidate t
                   (if terminal : bool then STOP else FINISH_REASON_UNSPECIFIED)])
          None
    /\ Js.truthy t = true.

(** The incremental text of a streamed OpenAI chunk. *)
Definition openai_delta (chunk : OpenAI.CompletionChunk) : string :=
  match OpenAI.firstStreamChoice chunk with
  | Some c => match OpenAI.delta c with
              | Some d => Js.str_of_undefined (OpenAI.dcontent d)
              | None => ""
              end
  | None => ""
  end.

(** The incremental text of a streamed Anthropic event: only a
    content_block_delta event carries one. *)
Definition anthropic_delta (e : Anthropic.StreamEvent) : string :=
  if Anthropic.etype e =? "content_block_delta"
  then match Anthropic.edelta e with
       | Some d => Js.str_of_undefined (Anthropic.dtext d)
       | None => ""
       end
  else "".

End Spec.

(** ** The model selection of the terminal UI (ModelsDialog.tsx, useModels.ts) *)

Module ModelsDialog.
Import ModelMapping.

Record Item := mkItem { label : string; value : string }.

Definition validateModelWithSettings (model : string) : option string :=
  if negb (isModelSupported model)
  then Some ("Model '" ++ model
               ++ "' is not supported. Please select a supported model.")
  else None.

Definition openaiModels : list ModelMapping :=
  filter (fun m => Provider_eqb (provider m) openai) API_MODEL_MAPPINGS.

Definition anthropicModels : list ModelMapping :=
  filter (fun m => Provider_eqb (provider m) anthropic) API_MODEL_MAPPINGS.

Definition googleModels : list ModelMapping :=
  filter (fun m => Provider_eqb (provider m) google) API_MODEL_MAPPINGS.

Definition items : list Item :=
  (map (fun model => mkItem ("OpenAI: " ++ internal model) (internal model))
       openaiModels
   ++ map (fun model => mkItem ("Anthropic: " ++ internal model) (internal model))
          anthropicModels
   ++ map (fun model => mkItem ("Google: " ++ internal model) (internal model))
          googleModels)%list.

(** [xs.findIndex(f)], with [None] for -1. *)
Fixpoint findIndex {A : Type} (f : A -> bool) (xs : list A) : option nat :=
  match xs with
  | [] => None
  | x :: rest =>
      if f x then Some 0
      else match findIndex f rest with
           | Some i => Some (S i)
           | None => None
           end
  end.

Definition initialModelIndex (selectedModel : option string) : nat :=
  let initialModelIndex := 0 in
  if Factory.truthy selectedModel
  then
    match findIndex (fun item => value item =? Js.str_of_undefined selectedModel)
                    items with
    | Some index => index
    | None => initialModelIndex
    end
  else
    let defaultModel := "gpt-4o" in
    match findIndex (fun item => value item =? defaultModel) items with
    | Some index => index
    | None => initialModelIndex
    end.

End ModelsDialog.

(** ** A parser for the frames of the examples *)

Module Sample.

Definition quote : ascii := ascii_of_nat 34.
Definition dq : string := String quote "".

Fixpoint until_quote (s : string) : option (string * string) :=
  match s with
  | EmptyString => None
  | String c rest =>
      if Ascii.eqb c quote then Some ("", rest)
      else match until_quote rest with
           | Some (t, after) => Some (String c t, after)
           | None => None
           end
  end.

Definition after_prefix (p s : string) : option string :=
  if String.prefix p s
  then Some (String.substring (String.length p)
                              (String.length s - String.length p) s)
  else None.

Definition opening : string := "{" ++ dq ++ "chunk" ++ dq ++ ":" ++ dq.
Definition closing (b : string) : string :=
  "," ++ dq ++ "finished" ++ dq ++ ":" ++ b ++ "}".

(** Reads an object of a chunk string without escapes and a finished
    flag, in this order and without white space; rejects the rest. *)
Definition parse (p : string) : option Api.ChatStreamChunk :=
  match after_prefix opening p with
  | None => None
  | Some r =>
      match until_quote r with
      | None => None
      | Some (t, after) =>
          if after =? closing "true" then Some (Api.mkChunk t true)
          else if after =? closing "false" then Some (Api.mkChunk t false)
          else None
      end
  end.

Definition payload_of (t : string) (b : bool) : string :=
  opening ++ t ++ dq ++ closing (if b then "true" else "false").

Definition frame (t : string) (b : bool) : Spec.Frame :=
  Spec.mkFrame (payload_of t b) t b.

(** A stream of two frames, one line whose payload is cut short, and a
    terminal frame, delivered in two blocks that cut the first frame. *)
Definition items : list Spec.Item :=
  [Spec.Good (frame "Hel" false); Spec.Good (frame "lo" false);
   Spec.Other "data: {oops"; Spec.Good (frame "!" true)].

Definition text : string := Spec.wire (map Spec.line_of items).

Definition reader : Api.Reader :=
  Api.mkReader
    [String.substring 0 20 text;
     String.substring 20 (String.length text - 20) text]
    None.

Definition response : Api.HttpResponse :=
  Api.mkHttp true "200" "OK" "" (Err "Unexpected token") (Some reader).

Definition fetch (request : Eff.Call) : Result Api.HttpResponse :=
  Ok response.

Definition generator : Api.ApiContentGenerator :=
  Api.mkGenerator "https://gateway.example" "secret" "gpt-4o".

(** A reply of the gateway that carries no metadata. *)
Definition plain_reply : Api.ChatApiResponse :=
  Api.mkApiResponse "Hello" "gpt-4o" Api.gateway None.

Definition send (request : Eff.Call) : Result Api.HttpResponse :=
  Ok (Api.mkHttp true "200" "OK" "" (Ok plain_reply) None).

(** A completion whose usage block carries the prompt counter only. *)
Definition completion : OpenAI.ChatCompletion :=
  OpenAI.mkCompletion
    (Some [OpenAI.mkChoice (Some (OpenAI.mkChoiceMessage (Some "Hello")))
                           (Some "stop")])
    (Some (OpenAI.mkNativeUsage (Some 7%Z) None None)).

Definition create (request : Eff.Call) : Result OpenAI.ChatCompletion :=
  Ok completion.

Definition openai : OpenAI.OpenAIContentGenerator :=
  OpenAI.mkGenerator "sk-secret" "gpt-4o".

Definition anthropic : Anthropic.AnthropicContentGenerator :=
  Anthropic.mkGenerator "sk-ant-secret" "claude-3-5-sonnet-20241022".

(** A process without any credential in its environment, in which the
    Gemini API key mode is selected. *)
Definition bare_env : Factory.ProcessEnv :=
  Factory.mkEnv None None None None None None None None None None None.

Definition ambient : Factory.Ambient :=
  Factory.mkAmbient None "v20.11.0" "linux" "x64" (Some false) "install-1".

Definition gemini_config : Factory.ContentGeneratorConfig :=
  Factory.createContentGeneratorConfig
    None (Some Factory.AuthType.USE_GEMINI) None bare_env.

Definition openai_config : Factory.ContentGeneratorConfig :=
  Factory.createContentGeneratorConfig
    None (Some Factory.AuthType.USE_OPENAI) None bare_env.

Definition no_code_assist (headers : Factory.Headers) (authType : string)
  : Result unit := Err "Could not load the default credentials".

(** A streamed completion: a role chunk without text, two text chunks,
    the last one with its finish reason. *)
Definition openai_stream : OpenAI.NativeStream :=
  OpenAI.mkNativeStream
    [OpenAI.mkCompletionChunk
       (Some [OpenAI.mkStreamChoice (Some (OpenAI.mkDelta None)) None]);
     OpenAI.mkCompletionChunk
       (Some [OpenAI.mkStreamChoice (Some (OpenAI.mkDelta (Some "Hel"))) None]);
     OpenAI.mkCompletionChunk
       (Some [OpenAI.mkStreamChoice (Some (OpenAI.mkDelta (Some "lo")))
                                    (Some "stop")])]
    None.

(** A streamed message: its start, one text delta, and the closing
    delta that carries the stop reason. *)
Definition anthropic_stream : Anthropic.NativeStream :=
  Anthropic.mkNativeStream
    [Anthropic.mkEvent "message_start" None None;
     Anthropic.mkEvent "content_block_delta"
                       (Some (Anthropic.mkTextDelta (Some "Hi"))) None;
     Anthropic.mkEvent "message_delta" None (Some "end_turn")]
    None.

End Sample.

(** * Properties *)

(** ** Array.prototype.find *)

Section Find.
Context {A : Type}.

Lemma find_first_match (f : A -> bool) (pre post : list A) (e : A) :
  f e = true ->
  (forall e', In e' pre -> f e' = false) ->
  find f (pre ++ e :: post)%list = Some e.
Proof.
  intros He Hpre. induction pre as [|p pre IH]; simpl.
  - now rewrite He.
  - rewrite (Hpre p (or_introl eq_refl)).
    apply IH. intros e' Hin. apply Hpre. now right.
Qed.

Lemma find_no_match (f : A -> bool) (l : list A) :
  (forall e, In e l -> f e = false) -> find f l = None.
Proof.
  induction l as [|a l IH]; simpl; intros H; [reflexivity|].
  rewrite (H a (or_introl eq_refl)). apply IH. intros e He. apply H. now right.
Qed.

Lemma existsb_no_match (f : A -> bool) (l : list A) :
  (forall e, In e l -> f e = false) -> existsb f l = false.
Proof.
  induction l as [|a l IH]; simpl; intros H; [reflexivity|].
  rewrite (H a (or_introl eq_refl)). apply IH. intros e He. apply H. now right.
Qed.
End Find.

(** ** The model table *)

Module ModelMappingFacts.
Import ModelMapping.

(** Case analysis on every comparison of a literal id with a variable
    id that a lookup in the table makes. *)
Ltac unfold_lookup :=
  cbv [mapToApiModel mapFromApiModel getModelProvider API_MODEL_MAPPINGS];
  cbn [find api internal provider].

Ltac scan_table :=
  unfold_lookup;
  repeat match goal with
    | |- context [String.eqb ?a ?b] =>
        destruct (String.eqb_spec a b); try subst b;
        cbn [find api internal provider]
    end.

Lemma unregistered_internal x :
  unregistered x ->
  forall e, In e API_MODEL_MAPPINGS -> (internal e =? x) = false.
Proof.
  intros U e He. apply String.eqb_neq. exact (proj1 (U e He)).
Qed.

Lemma unregistered_api x :
  unregistered x ->
  forall e, In e API_MODEL_MAPPINGS -> (api e =? x) = false.
Proof.
  intros U e He. apply String.eqb_neq. exact (proj2 (U e He)).
Qed.

(** C1: every registered internal id survives the trip to its api id and
    back, except the two legacy aliases 'gemini-2.5-flash' and
    'gemini-2.5-flash-lite': their api id is 'gemini-1.5-flash' and the
    trip ends at the alias target 'gemini-1.5-flash'. *)
Theorem roundtrip_registered (m : string) :
  In m (map internal API_MODEL_MAPPINGS) ->
  (~ legacy_alias m -> mapFromApiModel (mapToApiModel m) = m)
  /\ (legacy_alias m ->
      mapToApiModel m = "gemini-1.5-flash"
      /\ mapFromApiModel (mapToApiModel m) = "gemini-1.5-flash").
Proof.
  unfold legacy_alias. simpl.
  intros H.
  repeat (destruct H as [H|H]; [subst m; vm_compute; split; intros K|]);
    try contradiction;
    try reflexivity;
    try (split; reflexivity);
    try (destruct K; discriminate);
    try (exfalso; apply K; auto).
Qed.

Lemma roundtrip_registered_witness :
  In "claude-opus-4-1" (map internal API_MODEL_MAPPINGS)
  /\ mapFromApiModel (mapToApiModel "claude-opus-4-1") = "claude-opus-4-1".
Proof.
  assert (Hin : In "claude-opus-4-1" (map internal API_MODEL_MAPPINGS))
    by (simpl; tauto).
  split; [exact Hin|].
  apply (roundtrip_registered "claude-opus-4-1" Hin).
  intros [K|K]; discriminate.
Defined.

(** C9: an id that no entry carries is echoed by mapToApiModel, has no
    provider and is not supported; every id some entry carries, as
    internal or as api id, is supported; 'claude-opus-4-1' is supported
    and 'not-a-model' is not.  The lookups are total functions. *)
Theorem unregistered_ids_fail_open :
  (forall x, unregistered x ->
             mapToApiModel x = x
             /\ getModelProvider x = None
             /\ isModelSupported x = false)
  /\ (forall e, In e API_MODEL_MAPPINGS ->
                isModelSupported (internal e) = true
                /\ isModelSupported (api e) = true)
  /\ isModelSupported "claude-opus-4-1" = true
  /\ isModelSupported "not-a-model" = false.
Proof.
  split; [|split; [|split; reflexivity]].
  - intros x U.
    unfold mapToApiModel, getModelProvider, isModelSupported.
    rewrite (find_no_match _ _ (unregistered_internal x U)).
    rewrite (find_no_match _ _ (unregistered_api x U)).
    repeat split.
    apply existsb_no_match. intros e He.
    now rewrite (unregistered_internal x U e He), (unregistered_api x U e He).
  - intros e He. unfold isModelSupported.
    split; apply existsb_exists; exists e; (split; [exact He|]);
      rewrite String.eqb_refl; [reflexivity | apply orb_true_r].
Qed.

Lemma not_a_model_unregistered : unregistered "not-a-model".
Proof.
  intros e He. simpl in He.
  repeat (destruct He as [He|He]; [subst e; split; discriminate|]).
  contradiction.
Defined.

Lemma unregistered_ids_fail_open_witness :
  mapToApiModel "not-a-model" = "not-a-model"
  /\ getModelProvider "not-a-model" = None
  /\ isModelSupported "not-a-model" = false.
Proof.
  exact (proj1 unregistered_ids_fail_open "not-a-model" not_a_model_unregistered).
Defined.

Lemma legacy_only_echoed x :
  legacy_alias (mapFromApiModel x) -> mapFromApiModel x = x.
Proof.
  unfold legacy_alias.
  scan_table; intros [K|K]; try discriminate K; try reflexivity;
    congruence.
Qed.

Lemma legacy_never_matched x m :
  find (fun e => api e =? x) API_MODEL_MAPPINGS = Some m ->
  ~ legacy_alias (internal m).
Proof.
  unfold legacy_alias.
  scan_table; intros H; inversion H; subst m; cbn [internal];
    intros [K|K]; try discriminate K; congruence.
Qed.

(** C10 as the code has it: an api id shared by several entries resolves
    to the internal id of the earliest of them in table order, so
    'gemini-1.5-flash' resolves to itself; no table match ever returns
    'gemini-2.5-flash' or 'gemini-2.5-flash-lite', and the only input
    for which mapFromApiModel returns one of them is that very id,
    echoed because nothing matches it. *)
Theorem mapFromApiModel_earliest_entry :
  (forall a pre e post,
      API_MODEL_MAPPINGS = (pre ++ e :: post)%list ->
      api e = a ->
      (forall e', In e' pre -> api e' <> a) ->
      mapFromApiModel a = internal e)
  /\ mapFromApiModel "gemini-1.5-flash" = "gemini-1.5-flash"
  /\ (forall x m,
         find (fun e => api e =? x) API_MODEL_MAPPINGS = Some m ->
         ~ legacy_alias (internal m))
  /\ (forall x, legacy_alias (mapFromApiModel x) -> mapFromApiModel x = x).
Proof.
  split; [|split; [reflexivity|split]].
  - intros a pre e post Htable Hapi Hpre.
    unfold mapFromApiModel. rewrite Htable.
    rewrite (find_first_match (fun m => api m =? a) pre post e).
    + reflexivity.
    + now apply String.eqb_eq.
    + intros e' He'. apply String.eqb_neq. now apply Hpre.
  - exact legacy_never_matched.
  - exact legacy_only_echoed.
Qed.

Lemma mapFromApiModel_earliest_entry_witness :
  mapFromApiModel "gemini-1.5-flash"
  = internal (mkMapping "gemini-1.5-flash" "gemini-1.5-flash" google).
Proof.
  apply (proj1 mapFromApiModel_earliest_entry "gemini-1.5-flash"
           (firstn 11 API_MODEL_MAPPINGS) _ (skipn 12 API_MODEL_MAPPINGS)).
  - reflexivity.
  - reflexivity.
  - simpl. intros e' He'.
    repeat (destruct He' as [He'|He']; [subst e'; discriminate|]).
    contradiction.
Defined.

(** The input at which C10, as the claim words it, fails: the legacy
    ids come back from mapFromApiModel when they go in. *)
Lemma legacy_id_echoed :
  mapFromApiModel "gemini-2.5-flash" = "gemini-2.5-flash"
  /\ mapFromApiModel "gemini-2.5-flash-lite" = "gemini-2.5-flash-lite".
Proof. split; reflexivity. Qed.

End ModelMappingFacts.

(** ** Strings and lines *)

Module JsFacts.
Import Js.

Lemma append_empty_r (s : string) : s ++ "" = s.
Proof. induction s as [|c s IH]; simpl; [reflexivity | now rewrite IH]. Qed.

Lemma append_assoc (s t u : string) : (s ++ t) ++ u = s ++ t ++ u.
Proof. induction s as [|c s IH]; simpl; [reflexivity | now rewrite IH]. Qed.

Lemma concat_empty_cons (x : string) (l : list string) :
  String.concat "" (x :: l) = x ++ String.concat "" l.
Proof.
  destruct l as [|y l]; simpl; [now rewrite append_empty_r | reflexivity].
Qed.

Lemma join_concat (sep : string) (l : list string) :
  join sep l = String.concat sep l.
Proof.
  induction l as [|x l IH]; [reflexivity|].
  destruct l as [|y l]; [reflexivity|].
  change (x ++ sep ++ join sep (y :: l) = x ++ sep ++ String.concat sep (y :: l)).
  now rewrite IH.
Qed.

Lemma or_else_empty (s : string) : or_else s "" = s.
Proof. now destruct s. Qed.

Lemma substring_all (s : string) : String.substring 0 (String.length s) s = s.
Proof. induction s as [|c s IH]; simpl; [reflexivity | now rewrite IH]. Qed.

Lemma split_lf_nonempty (s : string) : split_lf s <> [].
Proof.
  induction s as [|c s IH]; simpl; [discriminate|].
  destruct (Ascii.eqb c LF); [discriminate|].
  destruct (split_lf s); discriminate.
Qed.

(** Splitting a text that arrives in two blocks: the complete lines of
    the first block, then the split of its last fragment followed by
    the second block. *)
Lemma split_lf_app (s t : string) :
  split_lf (s ++ t)
  = (removelast (split_lf s) ++ split_lf (last (split_lf s) "" ++ t))%list.
Proof.
  induction s as [|c s IH]; [reflexivity|].
  pose proof (split_lf_nonempty s) as Hne.
  cbn [append split_lf].
  destruct (Ascii.eqb c LF) eqn:Ec.
  - rewrite IH. destruct (split_lf s) as [|p ps]; [contradiction|].
    reflexivity.
  - rewrite IH. destruct (split_lf s) as [|p [|q ps]]; [contradiction| |].
    + cbn [removelast last app append split_lf]. now rewrite Ec.
    + reflexivity.
Qed.

Lemma split_lf_pieces (s : string) :
  Forall (fun piece => Spec.has_lf piece = false) (split_lf s).
Proof.
  induction s as [|c s IH]; simpl.
  - now constructor.
  - destruct (Ascii.eqb c LF) eqn:Ec.
    + now constructor.
    + destruct (split_lf s) as [|p ps]; inversion IH; subst;
        constructor; auto; simpl; now rewrite Ec.
Qed.

Lemma split_lf_single (s : string) :
  Spec.has_lf s = false -> split_lf s = [s].
Proof.
  induction s as [|c s IH]; simpl; [reflexivity|].
  destruct (Ascii.eqb c LF); simpl; [discriminate|].
  intros H. now rewrite (IH H).
Qed.

Lemma split_lf_line (l rest : string) :
  Spec.has_lf l = false ->
  split_lf (l ++ Spec.NL ++ rest) = l :: split_lf rest.
Proof.
  change (Spec.NL ++ rest) with (String LF rest).
  induction l as [|c l IH]; simpl.
  - reflexivity.
  - destruct (Ascii.eqb c LF); simpl; [discriminate|].
    intros H. now rewrite (IH H).
Qed.

Lemma split_lf_wire (lines : list string) :
  Forall (fun l => Spec.has_lf l = false) lines ->
  split_lf (Spec.wire lines) = (lines ++ [""])%list.
Proof.
  induction 1 as [|l lines Hl _ IH]; [reflexivity|].
  cbn [Spec.wire app].
  now rewrite (split_lf_line _ _ Hl), IH.
Qed.

Lemma last_no_lf (s : string) : Spec.has_lf (last (split_lf s) "") = false.
Proof.
  pose proof (split_lf_pieces s) as H.
  induction H as [|p ps Hp _ IH]; [reflexivity|].
  destruct ps; [exact Hp | exact IH].
Qed.

Lemma trimEnd_keeps (c : ascii) (s : string) :
  isWhiteSpace c = false -> trimEnd (String c s) <> "".
Proof.
  intros H. simpl. destruct (trimEnd s); [rewrite H|]; discriminate.
Qed.

End JsFacts.

(** ** The stream normalizer of the gateway adapter *)

Module StreamFacts.
Import Genai Api Spec.

Section Normalizer.
Variable fetch : Eff.Call -> Result HttpResponse.
Variable JSON_parse : string -> option ChatStreamChunk.

Local Abbreviation processLine := (Api.processLine JSON_parse).
Local Abbreviation readLoop := (Api.readLoop JSON_parse).

(** The loop yields what the complete lines of the whole text yield,
    however the transport cuts the text into blocks. *)
Lemma readLoop_lines (blocks : list string) :
  forall buffer,
    has_lf buffer = false ->
    readLoop buffer blocks
    = flat_map processLine
        (removelast (Js.split_lf (buffer ++ String.concat "" blocks))).
Proof.
  induction blocks as [|value rest IH]; intros buffer Hbuf.
  - cbn [Api.readLoop String.concat].
    rewrite JsFacts.append_empty_r, (JsFacts.split_lf_single _ Hbuf).
    reflexivity.
  - cbn [Api.readLoop].
    rewrite JsFacts.or_else_empty, JsFacts.concat_empty_cons.
    rewrite (IH _ (JsFacts.last_no_lf (buffer ++ value))).
    rewrite <- JsFacts.append_assoc.
    rewrite (JsFacts.split_lf_app (buffer ++ value)).
    rewrite removelast_app by apply JsFacts.split_lf_nonempty.
    now rewrite flat_map_app.
Qed.

Lemma frame_line_no_lf (f : Frame) :
  has_lf (payload f) = false -> has_lf (frame_line f) = false.
Proof. intros H. exact H. Qed.

Lemma processLine_good (f : Frame) :
  well_formed JSON_parse f -> processLine (frame_line f) = [chunk_of f].
Proof.
  intros (_ & Hparse & Htext).
  unfold Api.processLine, frame_line.
  destruct (String.eqb_spec (Js.trim ("data: " ++ payload f)) "") as [E|_].
  - exfalso. revert E. apply JsFacts.trimEnd_keeps. reflexivity.
  - change (Js.startsWith "data: " ("data: " ++ payload f))
      with (String.prefix "" (payload f)).
    replace (String.prefix "" (payload f)) with true by now destruct (payload f).
    change (Js.slice 6 ("data: " ++ payload f))
      with (String.substring 0 (String.length (payload f) - 0) (payload f)).
    rewrite Nat.sub_0_r, JsFacts.substring_all, Hparse.
    cbn [chunk finished]. now rewrite Htext.
Qed.

Lemma processLine_malformed (line : string) :
  malformed JSON_parse line -> processLine line = [].
Proof.
  intros (_ & Hprefix & Hparse). unfold Api.processLine.
  rewrite Hprefix, Hparse. now destruct (Js.trim line =? "").
Qed.

Lemma processLine_unframed (line : string) :
  unframed line -> processLine line = [].
Proof.
  intros (_ & [Hblank | Hprefix]); unfold Api.processLine.
  - now rewrite Hblank.
  - rewrite Hprefix. now destruct (Js.trim line =? "").
Qed.

Lemma admissible_no_lf (items : list Item) :
  Forall (admissible JSON_parse) items ->
  Forall (fun l => has_lf l = false) (map line_of items).
Proof.
  induction 1 as [|i items Hi _ IH]; simpl; constructor; auto.
  destruct i as [f|l]; simpl in *.
  - apply frame_line_no_lf, Hi.
  - destruct Hi as [H|H]; apply H.
Qed.

Lemma lines_yield_chunks (items : list Item) :
  Forall (admissible JSON_parse) items ->
  flat_map processLine (map line_of items) = chunks_of items.
Proof.
  induction 1 as [|i items Hi _ IH]; [reflexivity|].
  cbn [map flat_map]. rewrite IH.
  destruct i as [f|l]; cbn [line_of chunks_of admissible] in *.
  - now rewrite (processLine_good f Hi).
  - destruct Hi as [H|H];
      [rewrite (processLine_malformed l H) | rewrite (processLine_unframed l H)];
      reflexivity.
Qed.

Lemma chunks_of_one_bad (good1 good2 : list Frame) (bad : string) :
  chunks_of (map Good good1 ++ Other bad :: map Good good2)
  = map chunk_of (good1 ++ good2).
Proof.
  induction good1 as [|f good1 IH]; simpl.
  - induction good2 as [|f good2 IH2]; simpl; [reflexivity | now rewrite IH2].
  - now rewrite IH.
Qed.

(** A fragment after the last line feed is never turned into a
    chunk: the loop ends on [done] without reading the buffer. *)
Lemma unterminated_tail_dropped (lines : list string) (tail : string) :
  Forall (fun l => has_lf l = false) lines ->
  has_lf tail = false ->
  readLoop "" [wire lines ++ tail] = flat_map processLine lines.
Proof.
  intros Hl Ht.
  rewrite readLoop_lines by reflexivity.
  cbn [String.concat append].
  rewrite JsFacts.split_lf_app, (JsFacts.split_lf_wire _ Hl).
  rewrite removelast_last, last_last. cbn [append].
  rewrite (JsFacts.split_lf_single _ Ht).
  now rewrite removelast_last.
Qed.

(** C2: when the body of the stream is a sequence of lines, each a
    well-formed frame (prefix 'data: ', parseable payload, non-empty
    chunk text), a malformed line (prefix, unparseable payload), a
    blank line or a line without the prefix, the generator yields the
    chunks of the frames, in order, and nothing for the other lines,
    however the text is cut into blocks; it ends in an error only if
    the reader fails.  For N frames, one malformed line and M frames
    it yields the N+M chunks of the frames, each with finishReason
    STOP when its frame is terminal and FINISH_REASON_UNSPECIFIED
    otherwise. *)
Theorem stream_drops_malformed_line
        (g : ApiContentGenerator) (contents : Contents)
        (response : HttpResponse) (reader : Reader) (items : list Item) :
  fetch (Eff.Fetch (apiEndpoint g ++ "/api/chat/stream") (authToken g)
                   (convertContentsToMessage contents)
                   (ModelMapping.mapToApiModel (model g)) true)
  = Ok response ->
  ok response = true ->
  body response = Some reader ->
  Forall (admissible JSON_parse) items ->
  String.concat "" (reads reader) = wire (map line_of items) ->
  yielded (generateContentStream fetch JSON_parse g contents)
  = chunks_of items
  /\ thrown (generateContentStream fetch JSON_parse g contents)
     = failure reader
  /\ released (generateContentStream fetch JSON_parse g contents) = true
  /\ forall good1 bad good2,
      items = (map Good good1 ++ Other bad :: map Good good2)%list ->
      yielded (generateContentStream fetch JSON_parse g contents)
      = map chunk_of (good1 ++ good2)
      /\ length (yielded (generateContentStream fetch JSON_parse g contents))
         = length good1 + length good2.
Proof.
  intros Hfetch Hok Hbody Hitems Htext.
  unfold generateContentStream, convertApiStreamToGemini.
  cbn [message model_name stream].
  rewrite Hfetch, Hok, Hbody. cbn [negb yielded thrown released].
  assert (Hy : readLoop "" (reads reader) = chunks_of items).
  { rewrite readLoop_lines by reflexivity.
    cbn [append]. rewrite Htext.
    rewrite (JsFacts.split_lf_wire _ (admissible_no_lf _ Hitems)).
    rewrite removelast_last. now apply lines_yield_chunks. }
  rewrite Hy. repeat split.
  - subst items. apply chunks_of_one_bad.
  - subst items. rewrite chunks_of_one_bad, length_map. apply length_app.
Qed.

End Normalizer.

Lemma stream_drops_malformed_line_witness :
  yielded (generateContentStream Sample.fetch Sample.parse Sample.generator
                                 (CString "hello"))
  = map chunk_of [Sample.frame "Hel" false; Sample.frame "lo" false;
                  Sample.frame "!" true]
  /\ length (yielded (generateContentStream Sample.fetch Sample.parse
                                            Sample.generator (CString "hello")))
     = 2 + 1.
Proof.
  assert (Hitems : Forall (admissible Sample.parse) Sample.items).
  { repeat constructor; vm_compute; reflexivity. }
  destruct (stream_drops_malformed_line
              Sample.fetch Sample.parse Sample.generator (CString "hello")
              Sample.response Sample.reader Sample.items
              eq_refl eq_refl eq_refl Hitems eq_refl)
    as (_ & _ & _ & H).
  exact (H [Sample.frame "Hel" false; Sample.frame "lo" false]
           "data: {oops" [Sample.frame "!" true] eq_refl).
Defined.

End StreamFacts.

(** ** Flattening, token estimates and embeddings *)

Module ContentFacts.
Import Genai Spec.

Lemma partsText_entryText (e : Entry) :
  match e with
  | EString s => s
  | _ => partsText (entryParts e)
  end = entryText e.
Proof.
  destruct e as [s|[r [ps|]]|p]; cbn [entryParts entryText partsText parts];
    try reflexivity.
  rewrite JsFacts.or_else_empty, JsFacts.join_concat. reflexivity.
Qed.

Lemma api_flatten (c : Contents) :
  Api.convertContentsToMessage c = flattenToText c.
Proof.
  destruct c as [s|es|c|p]; try reflexivity.
  cbn [Api.convertContentsToMessage flattenToText].
  rewrite JsFacts.join_concat. f_equal.
  apply map_ext. exact partsText_entryText.
Qed.

Lemma openai_flatten (c : Contents) :
  OpenAI.extractTextFromContents c = flattenToText c.
Proof. rewrite <- api_flatten. reflexivity. Qed.

Lemma anthropic_flatten (c : Contents) :
  Anthropic.extractTextFromContents c = flattenToText c.
Proof. rewrite <- api_flatten. reflexivity. Qed.

(** The text the estimate of the OpenAI adapter is taken of. *)
Lemma openai_messages_text (c : Contents) :
  Js.join " " (map Eff.mcontent (OpenAI.convertGeminiMessagesToOpenAI c))
  = flattenToText c.
Proof.
  rewrite <- api_flatten.
  destruct c as [s|es|c|p]; try reflexivity.
  cbn [OpenAI.convertGeminiMessagesToOpenAI Api.convertContentsToMessage].
  rewrite map_map. f_equal. apply map_ext. now intros [s|c|p].
Qed.

Lemma anthropic_messages_text (c : Contents) :
  Js.join " " (map Eff.mcontent (Anthropic.convertGeminiMessagesToAnthropic c))
  = flattenToText c.
Proof.
  rewrite <- api_flatten.
  destruct c as [s|es|c|p]; try reflexivity.
  cbn [Anthropic.convertGeminiMessagesToAnthropic Api.convertContentsToMessage].
  rewrite map_map. f_equal. apply map_ext. now intros [s|c|p].
Qed.

Lemma ceil_quarter_spec (n : nat) : is_ceil_quarter (ceil_quarter n) n.
Proof.
  unfold is_ceil_quarter, ceil_quarter.
  pose proof (Z.div_mod (- Z.of_nat n) 4 ltac:(lia)) as Hdm.
  pose proof (Z.mod_pos_bound (- Z.of_nat n) 4 ltac:(lia)) as Hb.
  lia.
Qed.

Lemma ceil_quarter_mono (n m : nat) :
  n <= m -> (ceil_quarter n <= ceil_quarter m)%Z.
Proof.
  intros H. unfold ceil_quarter.
  apply Z.opp_le_mono. rewrite !Z.opp_involutive.
  apply Z.div_le_mono; lia.
Qed.

(** C8: the flattening of every adapter is flattenToText: a raw string
    comes back unchanged (so flattening a flattened text changes
    nothing), a sequence becomes the texts of its entries with one
    space between them, the text of an entry being the string itself
    or the texts of its parts with one space between them, and any
    other shape becomes the empty string. *)
Theorem flattenToText_shapes :
  (forall c,
      Api.convertContentsToMessage c = flattenToText c
      /\ Api.extractTextFromContents c = flattenToText c
      /\ OpenAI.extractTextFromContents c = flattenToText c
      /\ Anthropic.extractTextFromContents c = flattenToText c)
  /\ (forall s, Api.convertContentsToMessage (CString s) = s)
  /\ (forall c,
         Api.convertContentsToMessage
           (CString (Api.convertContentsToMessage c))
         = Api.convertContentsToMessage c)
  /\ (forall es,
         Api.convertContentsToMessage (CArray es)
         = String.concat " " (map entryText es))
  /\ (forall s, entryText (EString s) = s)
  /\ (forall r ps,
         entryText (EContent (mkContent r (Some ps)))
         = String.concat " " (map (fun p => Js.str_of_undefined (text p)) ps))
  /\ (forall c, Api.convertContentsToMessage (CContent c) = "")
  /\ (forall p, Api.convertContentsToMessage (CPart p) = "").
Proof.
  split; [|repeat split].
  - intros c. repeat split;
      [apply api_flatten | apply api_flatten
       | apply openai_flatten | apply anthropic_flatten].
  - intros es. apply (api_flatten (CArray es)).
Qed.

(** C7: the adapters without a counting endpoint estimate the tokens of
    a request as the ceiling of a quarter of the length of its
    flattened text, and a request whose flattened text is no longer
    than another's gets an estimate that is no larger. *)
Theorem countTokens_estimate_monotone :
  (forall gA gO gN c,
      Api.countTokens gA c = ([], Ok (mkCount (estimate c)))
      /\ OpenAI.countTokens gO c = ([], Ok (mkCount (estimate c)))
      /\ Anthropic.countTokens gN c = ([], Ok (mkCount (estimate c))))
  /\ (forall c,
         is_ceil_quarter (estimate c) (String.length (flattenToText c)))
  /\ (forall c1 c2,
         String.length (flattenToText c1) <= String.length (flattenToText c2) ->
         (estimate c1 <= estimate c2)%Z).
Proof.
  split; [|split].
  - intros gA gO gN c. unfold estimate.
    unfold Api.countTokens, OpenAI.countTokens, Anthropic.countTokens.
    rewrite api_flatten, openai_messages_text, anthropic_messages_text.
    repeat split.
  - intros c. apply ceil_quarter_spec.
  - intros c1 c2 H. now apply ceil_quarter_mono.
Qed.

Lemma countTokens_estimate_monotone_witness :
  String.length (flattenToText (CString "hello"))
  <= String.length (flattenToText (CArray [EString "hello"; EString "world"]))
  /\ (estimate (CString "hello")
      <= estimate (CArray [EString "hello"; EString "world"]))%Z.
Proof.
  assert (H : String.length (flattenToText (CString "hello"))
              <= String.length
                   (flattenToText (CArray [EString "hello"; EString "world"])))
    by (simpl; lia).
  split; [exact H|].
  exact (proj2 (proj2 countTokens_estimate_monotone) _ _ H).
Defined.

End ContentFacts.

(** ** Adapters: embeddings, finish reasons and usage *)

Module AdapterFacts.
Import Genai Spec.

Lemma truthy_empty (s : string) : Js.truthy s = false <-> s = "".
Proof. destruct s; simpl; split; intros H; congruence. Qed.

(** C6: the adapters without an embeddings endpoint reject a request
    whose flattened text is blank after trim with an error that carries
    'No content provided for embedding', and answer any other request
    with one embedding of no values; neither makes a transport call. *)
Theorem embedContent_validates_text
        (gA : Api.ApiContentGenerator)
        (gN : Anthropic.AnthropicContentGenerator) (c : Contents) :
  (Js.trim (flattenToText c) = "" ->
   Api.embedContent gA c
   = ([], Err "API embedding error: No content provided for embedding")
   /\ Anthropic.embedContent gN c
      = ([], Err "Anthropic embedding error: No content provided for embedding")
   /\ contains "No content provided for embedding"
        "API embedding error: No content provided for embedding" = true
   /\ contains "No content provided for embedding"
        "Anthropic embedding error: No content provided for embedding" = true)
  /\ (Js.trim (flattenToText c) <> "" ->
      Api.embedContent gA c = ([], Ok (mkEmbed [mkEmbedding []]))
      /\ Anthropic.embedContent gN c = ([], Ok (mkEmbed [mkEmbedding []]))).
Proof.
  unfold Api.embedContent, Anthropic.embedContent, Api.extractTextFromContents.
  rewrite ContentFacts.api_flatten, ContentFacts.anthropic_flatten.
  split; intros H.
  - rewrite H. repeat split.
  - destruct (Js.truthy (Js.trim (flattenToText c))) eqn:E.
    + split; reflexivity.
    + apply truthy_empty in E. contradiction.
Qed.

Lemma embedContent_validates_text_witness :
  Js.trim (flattenToText (CString "   ")) = ""
  /\ Eff.calls (Api.embedContent Sample.generator (CString "   ")) = []
  /\ Eff.outcome (Api.embedContent Sample.generator (CString "   "))
     = Err "API embedding error: No content provided for embedding".
Proof.
  assert (H : Js.trim (flattenToText (CString "   ")) = "") by reflexivity.
  split; [exact H|].
  destruct (proj1 (embedContent_validates_text
                     Sample.generator Sample.anthropic (CString "   ")) H)
    as (HA & _).
  rewrite HA. split; reflexivity.
Defined.

(** C5: the finish reason of each provider goes to one of STOP,
    MAX_TOKENS, SAFETY and FINISH_REASON_UNSPECIFIED: 'stop', 'length' and
    'content_filter' of OpenAI to STOP, MAX_TOKENS and SAFETY; 'end_turn',
    'stop_sequence' and 'max_tokens' of Anthropic to STOP, STOP and
    MAX_TOKENS; every other reason, absent ones included, to
    FINISH_REASON_UNSPECIFIED. *)
Theorem convertFinishReason_table :
  OpenAI.convertFinishReason (Some "stop") = STOP
  /\ OpenAI.convertFinishReason (Some "length") = MAX_TOKENS
  /\ OpenAI.convertFinishReason (Some "content_filter") = SAFETY
  /\ (forall r,
         r <> Some "stop" -> r <> Some "length" -> r <> Some "content_filter" ->
         OpenAI.convertFinishReason r = FINISH_REASON_UNSPECIFIED)
  /\ Anthropic.convertFinishReason (Some "end_turn") = STOP
  /\ Anthropic.convertFinishReason (Some "stop_sequence") = STOP
  /\ Anthropic.convertFinishReason (Some "max_tokens") = MAX_TOKENS
  /\ (forall r,
         r <> Some "end_turn" -> r <> Some "stop_sequence" ->
         r <> Some "max_tokens" ->
         Anthropic.convertFinishReason r = FINISH_REASON_UNSPECIFIED)
  /\ (forall r, canonical (OpenAI.convertFinishReason r) = true)
  /\ (forall r, canonical (Anthropic.convertFinishReason r) = true).
Proof.
  repeat match goal with |- _ /\ _ => split end; try reflexivity.
  - intros [r|] H1 H2 H3; [|reflexivity]. unfold OpenAI.convertFinishReason.
    repeat match goal with
           | |- context [String.eqb ?a ?b] =>
               destruct (String.eqb_spec a b); [subst; congruence|]
           end.
    reflexivity.
  - intros [r|] H1 H2 H3; [|reflexivity]. unfold Anthropic.convertFinishReason.
    repeat match goal with
           | |- context [String.eqb ?a ?b] =>
               destruct (String.eqb_spec a b); [subst; congruence|]
           end.
    reflexivity.
  - intros [r|]; [|reflexivity]. unfold OpenAI.convertFinishReason.
    repeat match goal with
           | |- context [String.eqb ?a ?b] => destruct (String.eqb a b)
           end; reflexivity.
  - intros [r|]; [|reflexivity]. unfold Anthropic.convertFinishReason.
    repeat match goal with
           | |- context [String.eqb ?a ?b] => destruct (String.eqb a b)
           end; reflexivity.
Qed.

Lemma convertFinishReason_table_witness :
  OpenAI.convertFinishReason (Some "tool_calls") = FINISH_REASON_UNSPECIFIED
  /\ Anthropic.convertFinishReason None = FINISH_REASON_UNSPECIFIED.
Proof.
  destruct convertFinishReason_table
    as (_ & _ & _ & HO & _ & _ & _ & HA & _).
  split.
  - apply HO; discriminate.
  - apply HA; discriminate.
Defined.

End AdapterFacts.

(** ** Usage counters *)

Module UsageFacts.
Import Genai Spec.

Lemma or_zero_zero_fill (o : option Z) : Counter.or_zero o = zero_fill o.
Proof.
  destruct o as [n|]; simpl; [|reflexivity].
  destruct (Z.eqb_spec n 0); congruence.
Qed.

Lemma openai_usage (native : OpenAI.ChatCompletion) :
  usageMetadata (OpenAI.convertOpenAIResponseToGemini native)
  = Some (mkUsage
            (zero_fill (OpenAI.usageField OpenAI.prompt_tokens native))
            (zero_fill (OpenAI.usageField OpenAI.completion_tokens native))
            (zero_fill (OpenAI.usageField OpenAI.total_tokens native))).
Proof.
  unfold OpenAI.convertOpenAIResponseToGemini. cbn [usageMetadata].
  now rewrite !or_zero_zero_fill.
Qed.

Lemma anthropic_usage (native : Anthropic.MessageReply) :
  exists total,
    usageMetadata (Anthropic.convertAnthropicResponseToGemini native)
    = Some (mkUsage
              (zero_fill (Anthropic.usageField Anthropic.input_tokens native))
              (zero_fill (Anthropic.usageField Anthropic.output_tokens native))
              total)
    /\ (forall i o,
           Anthropic.usageField Anthropic.input_tokens native = Some i ->
           Anthropic.usageField Anthropic.output_tokens native = Some o ->
           total = (i + o)%Z)
    /\ (Anthropic.usageField Anthropic.input_tokens native = None ->
        Anthropic.usageField Anthropic.output_tokens native = None ->
        total = 0%Z).
Proof.
  unfold Anthropic.convertAnthropicResponseToGemini. cbn [usageMetadata].
  eexists. split; [now rewrite !or_zero_zero_fill|]. split.
  - intros i o Hi Ho. now rewrite Hi, Ho.
  - intros Hi Ho. now rewrite Hi, Ho.
Qed.

Lemma api_usage (native : Api.ChatApiResponse) :
  (forall n, Api.metadata_tokens_used native = Some n -> n <> 0%Z ->
             usageMetadata (Api.convertApiResponseToGemini native)
             = Some (mkUsage 0 n n))
  /\ (Api.metadata_tokens_used native = None
      \/ Api.metadata_tokens_used native = Some 0%Z ->
      usageMetadata (Api.convertApiResponseToGemini native) = None).
Proof.
  unfold Api.convertApiResponseToGemini. split.
  - intros n Hn Hz. rewrite Hn.
    destruct (Z.eqb_spec n 0); [contradiction | reflexivity].
  - intros [H|H]; now rewrite H.
Qed.

(** C4 as the code has it: a successful generate call of the OpenAI
    adapter returns a usage block whose three counters are the native
    ones, zero where the provider omits one; of the Anthropic adapter, a
    usage block whose prompt and completion counters are the native
    input and output counters, zero where omitted, and whose total is
    their sum when both are given and zero when both are omitted; of the
    gateway adapter, a usage block (prompt 0, completion and total the
    native tokens_used) when the reply carries a non-zero tokens_used,
    and no usage block otherwise. *)
Theorem usage_counters_mapped :
  (forall create g c r,
      Eff.outcome (OpenAI.generateContent create g c) = Ok r ->
      exists native,
        create (Eff.ChatCompletionsCreate
                  (OpenAI.model g) (OpenAI.convertGeminiMessagesToOpenAI c))
        = Ok native
        /\ usageMetadata r
           = Some (mkUsage
                     (zero_fill (OpenAI.usageField OpenAI.prompt_tokens native))
                     (zero_fill (OpenAI.usageField OpenAI.completion_tokens native))
                     (zero_fill (OpenAI.usageField OpenAI.total_tokens native))))
  /\ (forall create g c r,
         Eff.outcome (Anthropic.generateContent create g c) = Ok r ->
         exists native total,
           create (Eff.MessagesCreate
                     (Anthropic.model g)
                     (Anthropic.convertGeminiMessagesToAnthropic c))
           = Ok native
           /\ usageMetadata r
              = Some (mkUsage
                        (zero_fill (Anthropic.usageField Anthropic.input_tokens native))
                        (zero_fill (Anthropic.usageField Anthropic.output_tokens native))
                        total)
           /\ (forall i o,
                  Anthropic.usageField Anthropic.input_tokens native = Some i ->
                  Anthropic.usageField Anthropic.output_tokens native = Some o ->
                  total = (i + o)%Z)
           /\ (Anthropic.usageField Anthropic.input_tokens native = None ->
               Anthropic.usageField Anthropic.output_tokens native = None ->
               total = 0%Z))
  /\ (forall fetch g c r,
         Eff.outcome (Api.generateContent fetch g c) = Ok r ->
         exists response native,
           fetch (Eff.Fetch (Api.apiEndpoint g ++ "/api/chat/send")
                            (Api.authToken g)
                            (Api.convertContentsToMessage c)
                            (ModelMapping.mapToApiModel (Api.model g)) false)
           = Ok response
           /\ Api.json response = Ok native
           /\ (forall n, Api.metadata_tokens_used native = Some n ->
                         n <> 0%Z ->
                         usageMetadata r = Some (mkUsage 0 n n))
           /\ (Api.metadata_tokens_used native = None
               \/ Api.metadata_tokens_used native = Some 0%Z ->
               usageMetadata r = None)).
Proof.
  split; [|split].
  - intros create g c r.
    unfold OpenAI.generateContent, Eff.outcome, Eff.rethrow, Eff.bind,
      Eff.call, Eff.ret.
    destruct (create _) as [native|e] eqn:E; cbn; intros H; inversion H.
    exists native. split; [reflexivity | apply openai_usage].
  - intros create g c r.
    unfold Anthropic.generateContent, Eff.outcome, Eff.rethrow, Eff.bind,
      Eff.call, Eff.ret.
    destruct (create _) as [native|e] eqn:E; cbn; intros H; inversion H.
    destruct (anthropic_usage native) as (total & Hu & Hsum & Hzero).
    exists native, total. auto.
  - intros fetch g c r.
    unfold Api.generateContent, Api.makeApiRequest, Eff.outcome, Eff.rethrow,
      Eff.bind, Eff.call, Eff.ret, Eff.throw.
    cbn [Api.message Api.model_name Api.stream].
    destruct (fetch _) as [response|e] eqn:E; cbn; [|discriminate].
    destruct (Api.ok response); cbn; [|discriminate].
    destruct (Api.json response) as [native|e] eqn:J; cbn; [|discriminate].
    intros H; inversion H.
    exists response, native.
    destruct (api_usage native) as (Hsome & Hnone). auto.
Qed.

Lemma usage_counters_mapped_witness :
  Eff.outcome (OpenAI.generateContent Sample.create Sample.openai (CString "hi"))
  = Ok (OpenAI.convertOpenAIResponseToGemini Sample.completion)
  /\ usageMetadata (OpenAI.convertOpenAIResponseToGemini Sample.completion)
     = Some (mkUsage 7 0 0).
Proof.
  assert (H : Eff.outcome (OpenAI.generateContent Sample.create Sample.openai
                                                  (CString "hi"))
              = Ok (OpenAI.convertOpenAIResponseToGemini Sample.completion))
    by reflexivity.
  split; [exact H|].
  destruct (proj1 usage_counters_mapped _ _ _ _ H) as (native & Hn & Hu).
  injection Hn as <-. exact Hu.
Defined.

(** The reply at which C4, as the claim words it, fails: a successful
    generate call of the gateway adapter whose response has no usage
    block. *)
Lemma gateway_reply_without_usage :
  Eff.outcome (Api.generateContent Sample.send Sample.generator (CString "hello"))
  = Ok (Api.convertApiResponseToGemini Sample.plain_reply)
  /\ usageMetadata (Api.convertApiResponseToGemini Sample.plain_reply) = None.
Proof. split; reflexivity. Qed.

End UsageFacts.

(** ** The factory *)

Module FactoryFacts.
Import Factory.

Section Selection.
Variable CodeAssistServer : Type.
Variable createCodeAssist : Headers -> string -> Result CodeAssistServer.

Local Abbreviation create := (createContentGenerator createCodeAssist).

(** The modes exclude each other: case analysis on what the authType
    is, one of the seven tags or none of them. *)
Ltac by_mode config :=
  unfold createContentGenerator, recognized, adapter_of_mode,
    credential_missing, tagged;
  let a := fresh "a" in
  destruct (authType config) as [a|];
  [ destruct (String.eqb_spec a AuthType.LOGIN_WITH_GOOGLE) as [->|?];
    [| destruct (String.eqb_spec a AuthType.CLOUD_SHELL) as [->|?];
       [| destruct (String.eqb_spec a AuthType.USE_GEMINI) as [->|?];
          [| destruct (String.eqb_spec a AuthType.USE_VERTEX_AI) as [->|?];
             [| destruct (String.eqb_spec a AuthType.USE_OPENAI) as [->|?];
                [| destruct (String.eqb_spec a AuthType.USE_ANTHROPIC) as [->|?];
                   [| destruct (String.eqb_spec a AuthType.USE_API) as [->|?]]]]]]]
  |];
  cbn.

Ltac by_credentials config :=
  try destruct (createCodeAssist _ _);
  try (destruct (openaiApiKey config) as [[|? ?]|]);
  try (destruct (anthropicApiKey config) as [[|? ?]|]);
  try (destruct (apiEndpoint config) as [[|? ?]|]);
  try (destruct (apiAuthToken config) as [[|? ?]|]);
  cbn.

Lemma selection_by_mode (config : ContentGeneratorConfig) (env : Ambient)
      (g : ContentGenerator CodeAssistServer) :
  create config env = Ok g ->
  adapter_of_mode (authType config) = Some (kind (wrapped_adapter g)).
Proof.
  by_mode config; by_credentials config;
    intros H; inversion H; reflexivity.
Qed.

Lemma unrecognized_mode_fails (config : ContentGeneratorConfig)
      (env : Ambient) :
  recognized (authType config) = false ->
  create config env
  = Err ("Error creating contentGenerator: Unsupported authType: "
           ++ Js.template (authType config)).
Proof.
  by_mode config; intros H; try discriminate H; reflexivity.
Qed.

Lemma checked_modes (config : ContentGeneratorConfig) (env : Ambient) :
  tagged (authType config) AuthType.USE_OPENAI
  || tagged (authType config) AuthType.USE_ANTHROPIC
  || tagged (authType config) AuthType.USE_API = true ->
  is_err (create config env) = credential_missing config.
Proof.
  by_mode config; intros H; try discriminate H;
    by_credentials config; reflexivity.
Qed.

Lemma google_modes_unchecked (config : ContentGeneratorConfig)
      (env : Ambient) :
  adapter_of_mode (authType config) = Some KGoogleGenAI ->
  is_err (create config env) = false.
Proof.
  by_mode config; intros H; try discriminate H; reflexivity.
Qed.

Lemma login_modes_delegate (config : ContentGeneratorConfig)
      (env : Ambient) :
  adapter_of_mode (authType config) = Some KCodeAssist ->
  is_err (create config env)
  = is_err (createCodeAssist
              [("User-Agent",
                "GeminiCLI/" ++ or_default (CLI_VERSION env) (version env)
                  ++ " (" ++ platform env ++ "; " ++ arch env ++ ")")]
              (Js.template (authType config))).
Proof.
  by_mode config; intros H; try discriminate H;
    destruct (createCodeAssist _ _); reflexivity.
Qed.

(** C3 as the code has it: whatever the configuration, the factory
    either raises or returns one adapter inside the logging decorator,
    and the class of that adapter is the one of the authType, never
    another provider's; an authType outside the enum raises
    'Unsupported authType'; in the OpenAI, Anthropic and gateway modes
    it raises exactly when the key (or the endpoint or the token) is
    missing; in the Gemini and Vertex AI modes it checks no credential
    and always returns the GoogleGenAI wrapper; in the two login modes
    it raises exactly when the code-assist constructor does. *)
Theorem createContentGenerator_selection
        (config : ContentGeneratorConfig) (env : Ambient) :
  (forall g, create config env = Ok g ->
             adapter_of_mode (authType config)
             = Some (kind (wrapped_adapter g)))
  /\ (recognized (authType config) = false ->
      create config env
      = Err ("Error creating contentGenerator: Unsupported authType: "
               ++ Js.template (authType config)))
  /\ (tagged (authType config) AuthType.USE_OPENAI
      || tagged (authType config) AuthType.USE_ANTHROPIC
      || tagged (authType config) AuthType.USE_API = true ->
      is_err (create config env) = credential_missing config)
  /\ (adapter_of_mode (authType config) = Some KGoogleGenAI ->
      is_err (create config env) = false)
  /\ (adapter_of_mode (authType config) = Some KCodeAssist ->
      is_err (create config env)
      = is_err (createCodeAssist
                  [("User-Agent",
                    "GeminiCLI/" ++ or_default (CLI_VERSION env) (version env)
                      ++ " (" ++ platform env ++ "; " ++ arch env ++ ")")]
                  (Js.template (authType config)))).
Proof.
  repeat split.
  - apply selection_by_mode.
  - apply unrecognized_mode_fails.
  - apply checked_modes.
  - apply google_modes_unchecked.
  - apply login_modes_delegate.
Qed.

End Selection.

Lemma createContentGenerator_selection_witness :
  credential_missing Sample.openai_config = true
  /\ is_err (createContentGenerator Sample.no_code_assist
               Sample.openai_config Sample.ambient) = true.
Proof.
  split; [reflexivity|].
  destruct (createContentGenerator_selection
              unit Sample.no_code_assist Sample.openai_config Sample.ambient)
    as (_ & _ & H & _).
  rewrite H; reflexivity.
Defined.

(** The configuration at which C3, as the claim words it, fails: the
    Gemini API key mode is recognized, its key is missing, and the
    factory returns the GoogleGenAI wrapper instead of raising. *)
Lemma gemini_mode_without_key :
  recognized (authType Sample.gemini_config) = true
  /\ credential_missing Sample.gemini_config = true
  /\ createContentGenerator Sample.no_code_assist
       Sample.gemini_config Sample.ambient
     = Ok (LoggingContentGenerator
             (GoogleGenAIWrapper
                (mkGoogle None None
                          [("User-Agent", "GeminiCLI/v20.11.0 (linux; x64)")])
                "gemini-2.5-pro")).
Proof. repeat split. Qed.

End FactoryFacts.

(** ** The model table: lookups that compose *)

Module TableFacts.
Import ModelMapping.

(** An id is carried by some entry or by none. *)
Lemma registered_or_not (m : string) : {In m Spec.all_ids} + {unregistered m}.
Proof.
  destruct (in_dec string_dec m Spec.all_ids) as [Hin|Hout]; [now left|right].
  intros e He. split; intros E; apply Hout; unfold Spec.all_ids;
    apply in_or_app; [left|right]; rewrite <- E; now apply in_map.
Qed.

Lemma unregistered_echo (m : string) :
  unregistered m ->
  mapToApiModel m = m /\ mapFromApiModel m = m
  /\ getModelProvider m = None /\ isModelSupported m = false.
Proof.
  intros U.
  pose proof (ModelMappingFacts.unregistered_internal m U) as Hi.
  pose proof (ModelMappingFacts.unregistered_api m U) as Ha.
  unfold mapToApiModel, mapFromApiModel, getModelProvider, isModelSupported.
  rewrite (find_no_match _ _ Hi), (find_no_match _ _ Ha).
  repeat split. apply existsb_no_match. intros e He.
  now rewrite (Hi e He), (Ha e He).
Qed.

(** Case analysis on an id: each of the ids of the table in turn, by
    evaluation, then the ids the table does not carry. *)
Ltac by_id m :=
  let Hin := fresh "Hin" in
  let Hun := fresh "Hun" in
  destruct (registered_or_not m) as [Hin|Hun];
  [ cbv [Spec.all_ids API_MODEL_MAPPINGS map app internal api] in Hin;
    cbn [In] in Hin;
    repeat (destruct Hin as [<-|Hin]; [vm_compute; repeat split|]);
    try contradiction
  | let E1 := fresh "E" in
    let E2 := fresh "E" in
    let E3 := fresh "E" in
    let E4 := fresh "E" in
    destruct (unregistered_echo m Hun) as (E1 & E2 & E3 & E4);
    rewrite ?E1, ?E2, ?E1, ?E3, ?E4; repeat split ].

(** X1: the provider of a model does not depend on which of its two
    names is used: mapping an id to its api id, or back to its internal
    id, leaves getModelProvider unchanged. *)
Theorem provider_stable_under_mapping (m : string) :
  getModelProvider (mapToApiModel m) = getModelProvider m
  /\ getModelProvider (mapFromApiModel m) = getModelProvider m.
Proof.
  by_id m.
Qed.

(** X2: api ids are fixed points of mapToApiModel and internal ids of
    mapFromApiModel, so both maps are idempotent, and a trip to the
    internal id and back leaves the api id of any model unchanged, the
    legacy aliases included. *)
Theorem mapping_idempotent (m : string) :
  mapToApiModel (mapToApiModel m) = mapToApiModel m
  /\ mapFromApiModel (mapFromApiModel m) = mapFromApiModel m
  /\ mapToApiModel (mapFromApiModel (mapToApiModel m)) = mapToApiModel m.
Proof.
  by_id m.
Qed.

(** X3: a model is supported exactly when it has a provider, and
    support does not depend on which of its two names is used. *)
Theorem supported_iff_provider (m : string) :
  isModelSupported m
  = match getModelProvider m with Some _ => true | None => false end
  /\ isModelSupported (mapToApiModel m) = isModelSupported m
  /\ isModelSupported (mapFromApiModel m) = isModelSupported m.
Proof.
  by_id m.
Qed.

Lemma entry_resolves (e : ModelMapping) :
  In e API_MODEL_MAPPINGS ->
  getModelProvider (internal e) = Some (provider e)
  /\ getModelProvider (api e) = Some (provider e)
  /\ mapToApiModel (internal e) = api e.
Proof.
  cbv [API_MODEL_MAPPINGS]. cbn [In]. intros H.
  repeat (destruct H as [<-|H]; [vm_compute; repeat split|]).
  contradiction.
Qed.

(** X4: getModelsForProvider returns entries of the table of that
    provider and no other, and does not miss one; each entry it returns
    resolves to that provider under its internal id and under its api
    id, and its internal id maps to its own api id. *)
Theorem models_for_provider_consistent :
  (forall p e,
      In e (getModelsForProvider p) ->
      In e API_MODEL_MAPPINGS
      /\ provider e = p
      /\ getModelProvider (internal e) = Some p
      /\ getModelProvider (api e) = Some p
      /\ mapToApiModel (internal e) = api e)
  /\ (forall e, In e API_MODEL_MAPPINGS ->
                In e (getModelsForProvider (provider e))).
Proof.
  split.
  - intros p e He. apply filter_In in He. destruct He as (Hin & Hp).
    assert (provider e = p) as <-
      by (destruct (provider e), p; simpl in Hp; congruence).
    split; [exact Hin|split; [reflexivity|]]. now apply entry_resolves.
  - intros e He. apply filter_In. split; [exact He|]. now destruct (provider e).
Qed.

Lemma models_for_provider_consistent_witness :
  getModelProvider "claude-opus-4-1-20250805" = Some anthropic
  /\ mapToApiModel "claude-opus-4-1" = "claude-opus-4-1-20250805".
Proof.
  assert (H : In (mkMapping "claude-opus-4-1" "claude-opus-4-1-20250805" anthropic)
                 (getModelsForProvider anthropic)) by (vm_compute; tauto).
  destruct (proj1 models_for_provider_consistent _ _ H) as (_ & _ & _ & Ha & Hm).
  split; [exact Ha | exact Hm].
Defined.

End TableFacts.

(** ** The model selection dialog *)

Module DialogFacts.
Import ModelMapping ModelsDialog.

Lemma findIndex_some {A : Type} (f : A -> bool) (xs : list A) :
  forall i, findIndex f xs = Some i ->
            exists x, nth_error xs i = Some x /\ f x = true.
Proof.
  induction xs as [|a xs IH]; simpl; intros i H; [discriminate|].
  destruct (f a) eqn:Fa.
  - inversion H. exists a. now split.
  - destruct (findIndex f xs) as [j|]; [|discriminate].
    inversion H. now apply IH.
Qed.

Lemma findIndex_none {A : Type} (f : A -> bool) (xs : list A) :
  findIndex f xs = None -> forall x, In x xs -> f x = false.
Proof.
  induction xs as [|a xs IH]; simpl; intros H x Hx; [contradiction|].
  destruct (f a) eqn:Fa; [discriminate|].
  destruct (findIndex f xs); [discriminate|].
  destruct Hx as [<-|Hx]; [exact Fa | now apply IH].
Qed.

Lemma items_values : map value items = map internal API_MODEL_MAPPINGS.
Proof. reflexivity. Qed.

Lemma listed_found (s : string) :
  In s (map value items) ->
  exists i, findIndex (fun item => value item =? s) items = Some i.
Proof.
  intros Hin. destruct (findIndex _ items) as [i|] eqn:E; [now exists i|].
  apply in_map_iff in Hin. destruct Hin as (it & <- & Hit).
  pose proof (findIndex_none _ _ E it Hit) as K. cbn in K.
  now rewrite String.eqb_refl in K.
Qed.

Lemma unlisted_not_found (s : string) :
  ~ In s (map value items) ->
  findIndex (fun item => value item =? s) items = None.
Proof.
  intros Hout. destruct (findIndex _ items) as [i|] eqn:E; [|reflexivity].
  destruct (findIndex_some _ _ _ E) as (it & Hnth & Hv).
  exfalso. apply Hout. apply String.eqb_eq in Hv. subst s.
  apply in_map. eapply nth_error_In. exact Hnth.
Qed.

(** X5: the dialog offers every internal id of the table exactly once,
    grouped by provider, and nothing else; every model it offers passes
    validateModelWithSettings. *)
Theorem dialog_lists_every_model_once :
  NoDup (map value items)
  /\ (forall m, In m (map value items)
                <-> In m (map internal API_MODEL_MAPPINGS))
  /\ (forall it, In it items ->
                 validateModelWithSettings (value it) = None).
Proof.
  split; [|split].
  - rewrite items_values. cbv [API_MODEL_MAPPINGS map internal].
    repeat (constructor; [cbn [In]; intuition discriminate|]).
    constructor.
  - intros m. now rewrite items_values.
  - intros it Hit. vm_compute in Hit.
    repeat (destruct Hit as [<-|Hit]; [reflexivity|]). contradiction.
Qed.

(** X6: the index the dialog opens on always points at an item; it
    points at the selected model when that model is listed, at the first
    item when a model is selected that the dialog does not list, and at
    'gpt-4o' when no model (or the empty string) is selected. *)
Theorem initialModelIndex_points_at_selection :
  (forall sel, initialModelIndex sel < length items)
  /\ (forall s, Js.truthy s = true -> In s (map value items) ->
                option_map value (nth_error items (initialModelIndex (Some s)))
                = Some s)
  /\ (forall s, Js.truthy s = true -> ~ In s (map value items) ->
                initialModelIndex (Some s) = 0)
  /\ option_map value (nth_error items (initialModelIndex None)) = Some "gpt-4o"
  /\ option_map value (nth_error items (initialModelIndex (Some "")))
     = Some "gpt-4o".
Proof.
  split; [|split; [|split; [|split; reflexivity]]].
  - intros sel. unfold initialModelIndex.
    destruct (Factory.truthy sel);
      (destruct (findIndex _ items) as [i|] eqn:E;
       [destruct (findIndex_some _ _ _ E) as (x & Hx & _);
        apply nth_error_Some; congruence
       | vm_compute; lia]).
  - intros s Hs Hin. unfold initialModelIndex. cbn [Factory.truthy].
    rewrite Hs. cbn [Js.str_of_undefined].
    destruct (listed_found s Hin) as (i & E). rewrite E.
    destruct (findIndex_some _ _ _ E) as (x & Hx & Hv).
    rewrite Hx. cbn. f_equal. now apply String.eqb_eq.
  - intros s Hs Hout. unfold initialModelIndex. cbn [Factory.truthy].
    rewrite Hs. cbn [Js.str_of_undefined].
    now rewrite (unlisted_not_found s Hout).
Qed.

Lemma initialModelIndex_points_at_selection_witness :
  Js.truthy "claude-sonnet-4-0" = true
  /\ option_map value
       (nth_error items (initialModelIndex (Some "claude-sonnet-4-0")))
     = Some "claude-sonnet-4-0".
Proof.
  split; [reflexivity|].
  apply (proj1 (proj2 initialModelIndex_points_at_selection));
    [reflexivity | vm_compute; tauto].
Defined.

(** X7: validateModelWithSettings accepts exactly the ids the table
    carries, internal or api; any other id is rejected with a message
    that quotes it. *)
Theorem validate_accepts_registered_ids (m : string) :
  (In m Spec.all_ids -> validateModelWithSettings m = None)
  /\ (~ In m Spec.all_ids ->
      validateModelWithSettings m
      = Some ("Model '" ++ m
                ++ "' is not supported. Please select a supported model.")).
Proof.
  unfold validateModelWithSettings. split; intros H.
  - replace (isModelSupported m) with true; [reflexivity|].
    symmetry. apply existsb_exists.
    apply in_app_or in H. destruct H as [H|H];
      apply in_map_iff in H; destruct H as (e & <- & He);
      exists e; (split; [exact He|]); rewrite String.eqb_refl;
      [reflexivity | apply orb_true_r].
  - destruct (TableFacts.registered_or_not m) as [Hin|Hun]; [contradiction|].
    destruct (TableFacts.unregistered_echo m Hun) as (_ & _ & _ & E).
    now rewrite E.
Qed.

Lemma validate_accepts_registered_ids_witness :
  In "claude-opus-4-20250514" Spec.all_ids
  /\ validateModelWithSettings "claude-opus-4-20250514" = None.
Proof.
  assert (H : In "claude-opus-4-20250514" Spec.all_ids) by (vm_compute; tauto).
  split; [exact H|].
  exact (proj1 (validate_accepts_registered_ids "claude-opus-4-20250514") H).
Defined.

End DialogFacts.

(** ** Contents: sequences, roles and estimates *)

Module ContentsFacts.
Import Genai.

Lemma join_app (sep : string) (l1 l2 : list string) :
  l1 <> [] -> l2 <> [] ->
  Js.join sep (l1 ++ l2) = Js.join sep l1 ++ sep ++ Js.join sep l2.
Proof.
  intros H1 H2. induction l1 as [|x l1 IH]; [contradiction|].
  destruct l1 as [|y l1].
  - destruct l2 as [|z l2]; [contradiction | reflexivity].
  - change (x ++ sep ++ Js.join sep ((y :: l1) ++ l2)
            = (x ++ sep ++ Js.join sep (y :: l1)) ++ sep ++ Js.join sep l2).
    rewrite IH by discriminate.
    now rewrite !JsFacts.append_assoc.
Qed.

Lemma length_append (s t : string) :
  String.length (s ++ t) = String.length s + String.length t.
Proof. induction s as [|c s IH]; simpl; [reflexivity | now rewrite IH]. Qed.

Lemma map_nonempty {A B : Type} (f : A -> B) (l : list A) :
  l <> [] -> map f l <> [].
Proof. destruct l; [contradiction | discriminate]. Qed.

Lemma ceil_quarter_bounds (n : nat) :
  (0 <= ceil_quarter n <= Z.of_nat n)%Z
  /\ (ceil_quarter n = 0%Z <-> n = 0).
Proof.
  pose proof (ContentFacts.ceil_quarter_spec n) as H.
  unfold Spec.is_ceil_quarter in H. lia.
Qed.

Lemma ceil_quarter_joined (a b : nat) :
  (ceil_quarter (a + (1 + b)) <= ceil_quarter a + ceil_quarter b + 1)%Z.
Proof.
  pose proof (ContentFacts.ceil_quarter_spec a) as Ha.
  pose proof (ContentFacts.ceil_quarter_spec b) as Hb.
  pose proof (ContentFacts.ceil_quarter_spec (a + (1 + b))) as Hab.
  unfold Spec.is_ceil_quarter in *. lia.
Qed.

Lemma flatten_app (es1 es2 : list Entry) :
  es1 <> [] -> es2 <> [] ->
  Api.convertContentsToMessage (CArray (es1 ++ es2))
  = Api.convertContentsToMessage (CArray es1) ++ " "
      ++ Api.convertContentsToMessage (CArray es2).
Proof.
  intros H1 H2. cbn [Api.convertContentsToMessage].
  rewrite map_app. apply join_app; now apply map_nonempty.
Qed.

(** X8: the flattening of a sequence made of two non-empty sequences is
    the flattening of the first, one space, and the flattening of the
    second. *)
Theorem flatten_sequence_append (es1 es2 : list Entry) :
  es1 <> [] -> es2 <> [] ->
  Api.convertContentsToMessage (CArray (es1 ++ es2))
  = Api.convertContentsToMessage (CArray es1) ++ " "
      ++ Api.convertContentsToMessage (CArray es2).
Proof.
  intros H1 H2. cbn [Api.convertContentsToMessage].
  rewrite map_app. apply join_app; now apply map_nonempty.
Qed.

Lemma flatten_sequence_append_witness :
  Api.convertContentsToMessage
    (CArray ([EString "a"; EContent (mkContent (Some "model")
                                       (Some [mkPart (Some "b"); mkPart (Some "c")]))]
             ++ [EString "d"]))
  = "a b c" ++ " " ++ "d".
Proof.
  apply (flatten_sequence_append
           [EString "a"; EContent (mkContent (Some "model")
                                     (Some [mkPart (Some "b"); mkPart (Some "c")]))]
           [EString "d"]); discriminate.
Defined.

(** X9: countTokens of the gateway adapter never fails and calls no
    transport; its estimate lies between zero and the length of the
    flattened text and is zero exactly when that text is empty. *)
Theorem countTokens_estimate_bounds
        (g : Api.ApiContentGenerator) (c : Contents) :
  exists t,
    Api.countTokens g c = ([], Ok (mkCount t))
    /\ (0 <= t <= Z.of_nat (String.length (Api.convertContentsToMessage c)))%Z
    /\ (t = 0%Z <-> Api.convertContentsToMessage c = "").
Proof.
  eexists. split; [reflexivity|].
  destruct (ceil_quarter_bounds (String.length (Api.convertContentsToMessage c)))
    as (Hb & Hz).
  split; [exact Hb|]. rewrite Hz.
  destruct (Api.convertContentsToMessage c); simpl; split; congruence.
Qed.

(** X10: the estimate of a sequence made of two non-empty sequences is
    at most the sum of their estimates plus one (the joining space), and
    at least each of them. *)
Theorem countTokens_sequence_append
        (g : Api.ApiContentGenerator) (es1 es2 : list Entry) :
  es1 <> [] -> es2 <> [] ->
  exists t1 t2 t,
    Api.countTokens g (CArray es1) = ([], Ok (mkCount t1))
    /\ Api.countTokens g (CArray es2) = ([], Ok (mkCount t2))
    /\ Api.countTokens g (CArray (es1 ++ es2)) = ([], Ok (mkCount t))
    /\ (t <= t1 + t2 + 1)%Z /\ (t1 <= t)%Z /\ (t2 <= t)%Z.
Proof.
  intros H1 H2. do 3 eexists.
  split; [reflexivity|]. split; [reflexivity|]. split; [reflexivity|].
  rewrite (flatten_app es1 es2 H1 H2), !length_append.
  split; [apply ceil_quarter_joined|].
  split; apply ContentFacts.ceil_quarter_mono; simpl; lia.
Qed.

Lemma countTokens_sequence_append_witness :
  exists t1 t2 t,
    Api.countTokens Sample.generator (CArray [EString "hello"])
    = ([], Ok (mkCount t1))
    /\ Api.countTokens Sample.generator (CArray [EString "world"])
       = ([], Ok (mkCount t2))
    /\ Api.countTokens Sample.generator
         (CArray ([EString "hello"] ++ [EString "world"]))
       = ([], Ok (mkCount t))
    /\ (t <= t1 + t2 + 1)%Z /\ (t1 <= t)%Z /\ (t2 <= t)%Z.
Proof.
  apply (countTokens_sequence_append Sample.generator
           [EString "hello"] [EString "world"]); discriminate.
Defined.

End ContentsFacts.

(** ** Role-tagged messages *)

Module MessageFacts.
Import Genai.

Lemma same_messages (c : Contents) :
  OpenAI.convertGeminiMessagesToOpenAI c
  = Anthropic.convertGeminiMessagesToAnthropic c.
Proof. reflexivity. Qed.

(** X11: both SDK adapters turn contents into the same messages: a raw
    string is one user message; a sequence gives one message per entry,
    in order, whose text is the text of the entry; the message of an
    entry has the user role exactly when the entry is a string or has
    role 'user' (a 'model' role, any other role and no role at all give
    the assistant role). *)
Theorem messages_follow_entries :
  (forall c, OpenAI.convertGeminiMessagesToOpenAI c
             = Anthropic.convertGeminiMessagesToAnthropic c)
  /\ (forall s, OpenAI.convertGeminiMessagesToOpenAI (CString s)
                = [Eff.mkMessage Eff.user s])
  /\ (forall es,
         length (OpenAI.convertGeminiMessagesToOpenAI (CArray es)) = length es
         /\ map Eff.mcontent (OpenAI.convertGeminiMessagesToOpenAI (CArray es))
            = map Spec.entryText es)
  /\ (forall es1 es2,
         OpenAI.convertGeminiMessagesToOpenAI (CArray (es1 ++ es2))
         = (OpenAI.convertGeminiMessagesToOpenAI (CArray es1)
              ++ OpenAI.convertGeminiMessagesToOpenAI (CArray es2))%list)
  /\ (forall e,
         exists m,
           OpenAI.convertGeminiMessagesToOpenAI (CArray [e]) = [m]
           /\ (Eff.mrole m = Eff.user
               <-> (exists s, e = EString s) \/ entryRole e = Some "user")).
Proof.
  split; [exact same_messages|]. split; [reflexivity|].
  split; [|split].
  - intros es. cbn [OpenAI.convertGeminiMessagesToOpenAI].
    rewrite length_map, map_map. split; [reflexivity|].
    apply map_ext. intros e.
    rewrite <- ContentFacts.partsText_entryText. now destruct e.
  - intros es1 es2. cbn [OpenAI.convertGeminiMessagesToOpenAI]. apply map_app.
  - intros e. eexists. split; [reflexivity|].
    destruct e as [s|[[r|] ps]|p]; cbn.
    + split; [intros _; left; now exists s | reflexivity].
    + destruct (String.eqb_spec r "user") as [->|N]; cbn.
      * split; [intros _; now right | reflexivity].
      * split; [discriminate|]. intros [[s Hs]|Hr]; [discriminate|congruence].
    + split; [discriminate|]. intros [[s Hs]|Hr]; discriminate.
    + split; [discriminate|]. intros [[s Hs]|Hr]; discriminate.
Qed.

(** X12: a single content or part object, which is neither a string nor
    a sequence, is not read by any adapter: it flattens to the empty
    text, gives no message, is estimated at zero tokens and is refused
    for embedding as if it were blank. *)
Theorem single_object_contents_ignored
        (gA : Api.ApiContentGenerator) (gN : Anthropic.AnthropicContentGenerator)
        (c : Contents) :
  (forall es s, c <> CArray es /\ c <> CString s) ->
  Api.convertContentsToMessage c = ""
  /\ OpenAI.extractTextFromContents c = ""
  /\ OpenAI.convertGeminiMessagesToOpenAI c = []
  /\ Anthropic.convertGeminiMessagesToAnthropic c = []
  /\ Api.countTokens gA c = ([], Ok (mkCount 0))
  /\ Anthropic.countTokens gN c = ([], Ok (mkCount 0))
  /\ Api.embedContent gA c
     = ([], Err "API embedding error: No content provided for embedding")
  /\ Anthropic.embedContent gN c
     = ([], Err "Anthropic embedding error: No content provided for embedding").
Proof.
  intros H. destruct c as [s|es|o|p].
  - now destruct (H [] s).
  - now destruct (H es "").
  - repeat split.
  - repeat split.
Qed.

Lemma single_object_contents_ignored_witness :
  Api.countTokens Sample.generator
    (CContent (mkContent (Some "user") (Some [mkPart (Some "hello world")])))
  = ([], Ok (mkCount 0)).
Proof.
  apply (single_object_contents_ignored Sample.generator Sample.anthropic
           (CContent (mkContent (Some "user") (Some [mkPart (Some "hello world")])))).
  intros es s. split; discriminate.
Defined.

End MessageFacts.

(** ** Generation: requests, errors and candidates *)

Module GenerateFacts.
Import Genai.

Lemma prefix_append (p s : string) : String.prefix p (p ++ s) = true.
Proof.
  induction p as [|a p IH]; simpl; [now destruct s|].
  destruct (ascii_dec a a); [exact IH | congruence].
Qed.

(** X13: a generate call makes exactly one transport request whatever
    its outcome (the gateway adapter posts the flattened text and the api
    id of its model to /api/chat/send with stream off), and every error
    it raises starts with the tag of its provider. *)
Theorem generate_one_request_tagged_errors :
  (forall fetch g c,
      Eff.calls (Api.generateContent fetch g c)
      = [Eff.Fetch (Api.apiEndpoint g ++ "/api/chat/send") (Api.authToken g)
                   (Api.convertContentsToMessage c)
                   (ModelMapping.mapToApiModel (Api.model g)) false]
      /\ forall msg,
          Eff.outcome (Api.generateContent fetch g c) = Err msg ->
          String.prefix "API content generation error: " msg = true)
  /\ (forall create g c,
         Eff.calls (OpenAI.generateContent create g c)
         = [Eff.ChatCompletionsCreate
              (OpenAI.model g) (OpenAI.convertGeminiMessagesToOpenAI c)]
         /\ forall msg,
             Eff.outcome (OpenAI.generateContent create g c) = Err msg ->
             String.prefix "OpenAI API error: " msg = true)
  /\ (forall create g c,
         Eff.calls (Anthropic.generateContent create g c)
         = [Eff.MessagesCreate
              (Anthropic.model g) (Anthropic.convertGeminiMessagesToAnthropic c)]
         /\ forall msg,
             Eff.outcome (Anthropic.generateContent create g c) = Err msg ->
             String.prefix "Anthropic API error: " msg = true).
Proof.
  assert (tagged : forall (A : Type) (p e msg : string),
             @Err A (p ++ e) = Err msg -> String.prefix p msg = true).
  { intros A p e msg H. injection H as <-. apply prefix_append. }
  split; [|split].
  - intros fetch g c.
    unfold Api.generateContent, Api.makeApiRequest, Eff.calls, Eff.outcome,
      Eff.rethrow, Eff.bind, Eff.call, Eff.ret, Eff.throw.
    cbn [Api.message Api.model_name Api.stream].
    destruct (fetch _) as [response|e]; cbn -[append].
    + destruct (Api.ok response); cbn -[append];
        [destruct (Api.json response); cbn -[append]|];
        (split; [reflexivity|]); intros msg H;
        first [discriminate H | exact (tagged _ _ _ _ H)].
    + split; [reflexivity|]. intros msg H. exact (tagged _ _ _ _ H).
  - intros create g c.
    unfold OpenAI.generateContent, Eff.calls, Eff.outcome,
      Eff.rethrow, Eff.bind, Eff.call, Eff.ret.
    destruct (create _); cbn -[append]; (split; [reflexivity|]);
      intros msg H; first [discriminate H | exact (tagged _ _ _ _ H)].
  - intros create g c.
    unfold Anthropic.generateContent, Eff.calls, Eff.outcome,
      Eff.rethrow, Eff.bind, Eff.call, Eff.ret.
    destruct (create _); cbn -[append]; (split; [reflexivity|]);
      intros msg H; first [discriminate H | exact (tagged _ _ _ _ H)].
Qed.

Lemma generate_one_request_tagged_errors_witness :
  Eff.outcome (Api.generateContent (fun _ => Err "fetch failed")
                                   Sample.generator (CString "hi"))
  = Err "API content generation error: fetch failed"
  /\ String.prefix "API content generation error: "
       "API content generation error: fetch failed" = true.
Proof.
  assert (H : Eff.outcome (Api.generateContent (fun _ => Err "fetch failed")
                                               Sample.generator (CString "hi"))
              = Err "API content generation error: fetch failed")
    by reflexivity.
  split; [exact H|].
  exact (proj2 (proj1 generate_one_request_tagged_errors
                  (fun _ => Err "fetch failed") Sample.generator (CString "hi"))
               _ H).
Defined.

Lemma openai_canonical (r : option string) :
  Spec.canonical (OpenAI.convertFinishReason r) = true.
Proof.
  destruct r as [r|]; [|reflexivity]. unfold OpenAI.convertFinishReason.
  repeat match goal with
         | |- context [String.eqb ?a ?b] => destruct (String.eqb a b)
         end; reflexivity.
Qed.

Lemma anthropic_canonical (r : option string) :
  Spec.canonical (Anthropic.convertFinishReason r) = true.
Proof.
  destruct r as [r|]; [|reflexivity]. unfold Anthropic.convertFinishReason.
  repeat match goal with
         | |- context [String.eqb ?a ?b] => destruct (String.eqb a b)
         end; reflexivity.
Qed.

(** X14: a successful generate call returns exactly one candidate, of
    role 'model', with exactly one text part and a canonical finish
    reason; the gateway adapter's candidate carries the message of the
    reply and always the reason STOP. *)
Theorem generate_returns_one_candidate :
  (forall fetch g c r,
      Eff.outcome (Api.generateContent fetch g c) = Ok r ->
      exists response native,
        fetch (Eff.Fetch (Api.apiEndpoint g ++ "/api/chat/send")
                         (Api.authToken g) (Api.convertContentsToMessage c)
                         (ModelMapping.mapToApiModel (Api.model g)) false)
        = Ok response
        /\ Api.ok response = true
        /\ Api.json response = Ok native
        /\ candidates r = Some [modelCandidate (Api.rmessage native) STOP])
  /\ (forall create g c r,
         Eff.outcome (OpenAI.generateContent create g c) = Ok r ->
         exists t reason,
           candidates r = Some [modelCandidate t reason]
           /\ Spec.canonical reason = true)
  /\ (forall create g c r,
         Eff.outcome (Anthropic.generateContent create g c) = Ok r ->
         exists t reason,
           candidates r = Some [modelCandidate t reason]
           /\ Spec.canonical reason = true).
Proof.
  split; [|split].
  - intros fetch g c r.
    unfold Api.generateContent, Api.makeApiRequest, Eff.outcome,
      Eff.rethrow, Eff.bind, Eff.call, Eff.ret, Eff.throw.
    cbn [Api.message Api.model_name Api.stream].
    destruct (fetch _) as [response|e] eqn:E; cbn; [|discriminate].
    destruct (Api.ok response) eqn:O; cbn; [|discriminate].
    destruct (Api.json response) as [native|e] eqn:J; cbn; [|discriminate].
    intros H; inversion H. exists response, native.
    repeat split; auto.
    unfold Api.convertApiResponseToGemini.
    destruct (Api.metadata_tokens_used native) as [n|]; [|reflexivity].
    now destruct (n =? 0)%Z.
  - intros create g c r.
    unfold OpenAI.generateContent, Eff.outcome, Eff.rethrow, Eff.bind,
      Eff.call, Eff.ret.
    destruct (create _) as [native|e]; cbn; intros H; inversion H.
    do 2 eexists. split; [reflexivity | apply openai_canonical].
  - intros create g c r.
    unfold Anthropic.generateContent, Eff.outcome, Eff.rethrow, Eff.bind,
      Eff.call, Eff.ret.
    destruct (create _) as [native|e]; cbn; intros H; inversion H.
    do 2 eexists. split; [reflexivity | apply anthropic_canonical].
Qed.

Lemma generate_returns_one_candidate_witness :
  exists response native,
    Sample.send (Eff.Fetch "https://gateway.example/api/chat/send" "secret"
                           "hello" "gpt-4o" false) = Ok response
    /\ Api.ok response = true
    /\ Api.json response = Ok native
    /\ candidates (Api.convertApiResponseToGemini Sample.plain_reply)
       = Some [modelCandidate (Api.rmessage native) STOP].
Proof.
  apply (proj1 generate_returns_one_candidate
           Sample.send Sample.generator (CString "hello")).
  reflexivity.
Defined.

(** X15: a native reply without any choice (OpenAI) or content block
    (Anthropic) is not an error: the call succeeds with a candidate of
    empty text and finish reason FINISH_REASON_UNSPECIFIED for OpenAI, and of
    empty text and the mapped stop reason for Anthropic. *)
Theorem empty_native_reply_succeeds :
  (forall create g c native,
      create (Eff.ChatCompletionsCreate
                (OpenAI.model g) (OpenAI.convertGeminiMessagesToOpenAI c))
      = Ok native ->
      OpenAI.firstChoice native = None ->
      exists r,
        Eff.outcome (OpenAI.generateContent create g c) = Ok r
        /\ candidates r = Some [modelCandidate "" FINISH_REASON_UNSPECIFIED])
  /\ (forall create g c native,
         create (Eff.MessagesCreate
                   (Anthropic.model g)
                   (Anthropic.convertGeminiMessagesToAnthropic c))
         = Ok native ->
         Anthropic.rcontent native = None \/ Anthropic.rcontent native = Some [] ->
         exists r,
           Eff.outcome (Anthropic.generateContent create g c) = Ok r
           /\ candidates r
              = Some [modelCandidate ""
                        (Anthropic.convertFinishReason
                           (Anthropic.stop_reason native))]).
Proof.
  split.
  - intros create g c native Hc Hn.
    unfold OpenAI.generateContent, Eff.outcome, Eff.rethrow, Eff.bind,
      Eff.call, Eff.ret.
    rewrite Hc. cbn. eexists. split; [reflexivity|].
    unfold OpenAI.convertOpenAIResponseToGemini. now rewrite Hn.
  - intros create g c native Hc Hn.
    unfold Anthropic.generateContent, Eff.outcome, Eff.rethrow, Eff.bind,
      Eff.call, Eff.ret.
    rewrite Hc. cbn. eexists. split; [reflexivity|].
    unfold Anthropic.convertAnthropicResponseToGemini.
    now destruct Hn as [-> | ->].
Qed.

Lemma empty_native_reply_succeeds_witness :
  exists r,
    Eff.outcome (OpenAI.generateContent
                   (fun _ => Ok (OpenAI.mkCompletion (Some []) None))
                   Sample.openai (CString "hi")) = Ok r
    /\ candidates r = Some [modelCandidate "" FINISH_REASON_UNSPECIFIED].
Proof.
  apply (proj1 empty_native_reply_succeeds
           (fun _ => Ok (OpenAI.mkCompletion (Some []) None))
           Sample.openai (CString "hi") (OpenAI.mkCompletion (Some []) None));
    reflexivity.
Defined.

End GenerateFacts.

(** ** Failures of the gateway, embeddings of the OpenAI adapter *)

Module FailureFacts.
Import Genai.

(** X16: when the gateway answers with a status that is not ok, a
    generate call fails with the status, its text and the body of the
    answer, tagged as a generation error, and never reads the answer as
    JSON; a stream yields nothing, ends with the untagged message of the
    stream request and never takes a reader. *)
Theorem gateway_http_failure
        (fetch : Eff.Call -> Result Api.HttpResponse)
        (parse : string -> option Api.ChatStreamChunk)
        (g : Api.ApiContentGenerator) (c : Contents)
        (response : Api.HttpResponse) :
  (forall request, fetch request = Ok response) ->
  Api.ok response = false ->
  Eff.outcome (Api.generateContent fetch g c)
  = Err ("API content generation error: " ++ "API request failed: "
           ++ Api.status response ++ " " ++ Api.statusText response
           ++ " - " ++ Api.bodyText response)
  /\ Api.yielded (Api.generateContentStream fetch parse g c) = []
  /\ Api.thrown (Api.generateContentStream fetch parse g c)
     = Some ("API stream request failed: "
               ++ Api.status response ++ " " ++ Api.statusText response
               ++ " - " ++ Api.bodyText response)
  /\ Api.released (Api.generateContentStream fetch parse g c) = false.
Proof.
  intros Hf Hok.
  unfold Api.generateContent, Api.makeApiRequest, Api.generateContentStream,
    Api.convertApiStreamToGemini, Eff.outcome, Eff.rethrow, Eff.bind,
    Eff.call, Eff.ret, Eff.throw.
  rewrite !Hf, Hok. repeat split.
Qed.

Lemma gateway_http_failure_witness :
  Eff.outcome
    (Api.generateContent
       (fun _ => Ok (Api.mkHttp false "503" "Service Unavailable" "busy"
                                (Ok Sample.plain_reply) None))
       Sample.generator (CString "hi"))
  = Err "API content generation error: API request failed: 503 Service Unavailable - busy".
Proof.
  apply (gateway_http_failure
           (fun _ => Ok (Api.mkHttp false "503" "Service Unavailable" "busy"
                                    (Ok Sample.plain_reply) None))
           Sample.parse Sample.generator (CString "hi")
           (Api.mkHttp false "503" "Service Unavailable" "busy"
                       (Ok Sample.plain_reply) None));
    reflexivity.
Defined.

(** X17: when the transport itself rejects, a generate call fails with
    the transport's message behind the generation tag, while a stream
    ends with the transport's message as it is: the streaming tag of
    generateContentStream is never applied.  Both made one request. *)
Theorem gateway_transport_rejection
        (fetch : Eff.Call -> Result Api.HttpResponse)
        (parse : string -> option Api.ChatStreamChunk)
        (g : Api.ApiContentGenerator) (c : Contents) (e : string) :
  (forall request, fetch request = Err e) ->
  Api.generateContent fetch g c
  = ([Eff.Fetch (Api.apiEndpoint g ++ "/api/chat/send") (Api.authToken g)
                (Api.convertContentsToMessage c)
                (ModelMapping.mapToApiModel (Api.model g)) false],
     Err ("API content generation error: " ++ e))
  /\ Api.generateContentStream fetch parse g c
     = Api.mkStream [] (Some e) false
         [Eff.Fetch (Api.apiEndpoint g ++ "/api/chat/stream") (Api.authToken g)
                    (Api.convertContentsToMessage c)
                    (ModelMapping.mapToApiModel (Api.model g)) true].
Proof.
  intros Hf.
  unfold Api.generateContent, Api.makeApiRequest, Api.generateContentStream,
    Api.convertApiStreamToGemini, Eff.rethrow, Eff.bind, Eff.call.
  rewrite !Hf. split; reflexivity.
Qed.

Lemma gateway_transport_rejection_witness :
  Api.thrown (Api.generateContentStream (fun _ => Err "ECONNREFUSED")
                                        Sample.parse Sample.generator
                                        (CString "hi"))
  = Some "ECONNREFUSED".
Proof.
  rewrite (proj2 (gateway_transport_rejection
                    (fun _ => Err "ECONNREFUSED") Sample.parse Sample.generator
                    (CString "hi") "ECONNREFUSED" (fun _ => eq_refl))).
  reflexivity.
Defined.

(** X18: embedContent of the OpenAI adapter asks the embeddings endpoint
    once, for the model 'text-embedding-3-small' and the flattened text,
    also when that text is blank; its errors carry the embedding tag of
    the provider, and a successful call returns exactly one embedding,
    the first of the reply, or an empty one when the reply has none. *)
Theorem openai_embedContent_one_request :
  forall createEmbedding g c,
    Eff.calls (OpenAI.embedContent createEmbedding g c)
    = [Eff.EmbeddingsCreate "text-embedding-3-small"
                            (OpenAI.extractTextFromContents c)]
    /\ (forall msg,
           Eff.outcome (OpenAI.embedContent createEmbedding g c) = Err msg ->
           String.prefix "OpenAI embedding error: " msg = true)
    /\ (forall r,
           Eff.outcome (OpenAI.embedContent createEmbedding g c) = Ok r ->
           exists reply,
             createEmbedding (Eff.EmbeddingsCreate "text-embedding-3-small"
                                (OpenAI.extractTextFromContents c)) = Ok reply
             /\ (forall d rest v,
                    OpenAI.data reply = d :: rest ->
                    OpenAI.embedding d = Some v ->
                    embeddings r = [mkEmbedding v])
             /\ (OpenAI.data reply = [] -> embeddings r = [mkEmbedding []])).
Proof.
  intros createEmbedding g c.
  unfold OpenAI.embedContent, Eff.calls, Eff.outcome, Eff.rethrow, Eff.bind,
    Eff.call, Eff.ret.
  destruct (createEmbedding _) as [reply|e] eqn:E; cbn -[append].
  - split; [reflexivity|]. split; [discriminate|].
    intros r H. injection H as <-. exists reply. split; [reflexivity|].
    split.
    + intros d rest v Hd Hv. now rewrite Hd, Hv.
    + intros Hd. now rewrite Hd.
  - split; [reflexivity|]. split; [|discriminate].
    intros msg H. injection H as <-.
    exact (GenerateFacts.prefix_append "OpenAI embedding error: " e).
Qed.

Lemma openai_embedContent_one_request_witness :
  Eff.calls (OpenAI.embedContent
               (fun _ => Ok (OpenAI.mkEmbeddingResponse [])) Sample.openai
               (CString "   "))
  = [Eff.EmbeddingsCreate "text-embedding-3-small" "   "].
Proof.
  exact (proj1 (openai_embedContent_one_request
                  (fun _ => Ok (OpenAI.mkEmbeddingResponse [])) Sample.openai
                  (CString "   "))).
Defined.

End FailureFacts.

(** ** Stream normalizers *)

Module NormalizerFacts.
Import Genai Spec.

Lemma concat_empty_app (l1 l2 : list string) :
  String.concat "" (l1 ++ l2) = String.concat "" l1 ++ String.concat "" l2.
Proof.
  induction l1 as [|x l1 IH]; [reflexivity|].
  change ((x :: l1) ++ l2)%list with (x :: (l1 ++ l2))%list.
  now rewrite !JsFacts.concat_empty_cons, IH, JsFacts.append_assoc.
Qed.

Lemma streamText_app (rs1 rs2 : list GenerateContentResponse) :
  streamText (rs1 ++ rs2) = streamText rs1 ++ streamText rs2.
Proof. unfold streamText. now rewrite map_app, concat_empty_app. Qed.

Lemma streamText_delta (t : string) (reason : FinishReason) :
  streamText [mkResponse (Some [modelCandidate t reason]) None] = t.
Proof. reflexivity. Qed.

Section PerChunk.
Context {A : Type}.
Variable toGemini : A -> list GenerateContentResponse.
Variable deltaOf : A -> string.
Hypothesis text_kept : forall a, streamText (toGemini a) = deltaOf a.
Hypothesis well_shaped : forall a, Forall delta_chunk (toGemini a).
Hypothesis at_most_one : forall a, length (toGemini a) <= 1.

Lemma normalized (l : list A) :
  streamText (flat_map toGemini l) = String.concat "" (map deltaOf l)
  /\ Forall delta_chunk (flat_map toGemini l)
  /\ length (flat_map toGemini l) <= length l.
Proof.
  induction l as [|a l (IHt & IHs & IHn)]; [repeat split; constructor|].
  cbn [flat_map map length].
  rewrite streamText_app, JsFacts.concat_empty_cons, text_kept, IHt,
    length_app.
  split; [reflexivity|]. split; [apply Forall_app; now split|].
  pose proof (at_most_one a). lia.
Qed.
End PerChunk.

Lemma openai_chunk (chunk : OpenAI.CompletionChunk) :
  streamText (OpenAI.chunkToGemini chunk) = openai_delta chunk
  /\ Forall delta_chunk (OpenAI.chunkToGemini chunk)
  /\ length (OpenAI.chunkToGemini chunk) <= 1.
Proof.
  unfold OpenAI.chunkToGemini, openai_delta.
  rewrite JsFacts.or_else_empty.
  set (content :=
         Js.str_of_undefined
           match OpenAI.firstStreamChoice chunk with
           | Some c => match OpenAI.delta c with
                       | Some d => OpenAI.dcontent d
                       | None => None
                       end
           | None => None
           end).
  assert (E : match OpenAI.firstStreamChoice chunk with
              | Some c => match OpenAI.delta c with
                          | Some d => Js.str_of_undefined (OpenAI.dcontent d)
                          | None => ""
                          end
              | None => ""
              end = content).
  { unfold content. destruct (OpenAI.firstStreamChoice chunk) as [c|];
      [destruct (OpenAI.delta c)|]; reflexivity. }
  rewrite E. destruct (Js.truthy content) eqn:T.
  - split; [apply streamText_delta|]. split; [|simpl; lia].
    constructor; [|constructor]. do 2 eexists. split; [reflexivity|].
    split; [exact T | apply GenerateFacts.openai_canonical].
  - apply AdapterFacts.truthy_empty in T. rewrite T.
    repeat split; [constructor | simpl; lia].
Qed.

Lemma anthropic_event (e : Anthropic.StreamEvent) :
  streamText (Anthropic.eventToGemini e) = anthropic_delta e
  /\ Forall delta_chunk (Anthropic.eventToGemini e)
  /\ length (Anthropic.eventToGemini e) <= 1.
Proof.
  unfold Anthropic.eventToGemini, anthropic_delta.
  destruct (Anthropic.etype e =? "content_block_delta");
    [|repeat split; [constructor | simpl; lia]].
  rewrite JsFacts.or_else_empty.
  set (content :=
         Js.str_of_undefined
           match Anthropic.edelta e with
           | Some d => Anthropic.dtext d
           | None => None
           end).
  assert (E : match Anthropic.edelta e with
              | Some d => Js.str_of_undefined (Anthropic.dtext d)
              | None => ""
              end = content).
  { unfold content. destruct (Anthropic.edelta e); reflexivity. }
  rewrite E. destruct (Js.truthy content) eqn:T.
  - split; [apply streamText_delta|]. split; [|simpl; lia].
    constructor; [|constructor]. do 2 eexists. split; [reflexivity|].
    split; [exact T | apply GenerateFacts.anthropic_canonical].
  - apply AdapterFacts.truthy_empty in T. rewrite T.
    repeat split; [constructor | simpl; lia].
Qed.

(** X19: the stream of the OpenAI adapter loses no text and adds none:
    the texts of the chunks it yields, put together, are the incremental
    texts of the native chunks put together; every chunk it yields has
    one candidate with a non-empty text and a canonical finish reason, so
    it yields at most one chunk per native chunk; a failure of the native
    stream ends it with the native message, and a failure to open the
    stream is an 'OpenAI API error'. *)
Theorem openai_stream_preserves_text :
  forall createStream g c,
    (forall gen,
        OpenAI.generateContentStream createStream g c = Ok gen ->
        exists s,
          createStream (OpenAI.model g) (OpenAI.convertGeminiMessagesToOpenAI c)
          = Ok s
          /\ streamText (OpenAI.yielded gen)
             = String.concat "" (map openai_delta (OpenAI.chunks s))
          /\ Forall delta_chunk (OpenAI.yielded gen)
          /\ length (OpenAI.yielded gen) <= length (OpenAI.chunks s)
          /\ OpenAI.thrown gen = OpenAI.sfailure s)
    /\ (forall e,
           createStream (OpenAI.model g) (OpenAI.convertGeminiMessagesToOpenAI c)
           = Err e ->
           OpenAI.generateContentStream createStream g c
           = Err ("OpenAI API error: " ++ e)).
Proof.
  intros createStream g c. unfold OpenAI.generateContentStream.
  destruct (createStream _ _) as [s|e0]; split.
  - intros gen H. injection H as <-. exists s. split; [reflexivity|].
    cbn [OpenAI.convertOpenAIStreamToGemini OpenAI.yielded OpenAI.thrown].
    destruct (normalized OpenAI.chunkToGemini openai_delta
                (fun a => proj1 (openai_chunk a))
                (fun a => proj1 (proj2 (openai_chunk a)))
                (fun a => proj2 (proj2 (openai_chunk a)))
                (OpenAI.chunks s)) as (Ht & Hs & Hn).
    auto.
  - discriminate.
  - discriminate.
  - intros e H. now injection H as <-.
Qed.

(** X20: the stream of the Anthropic adapter yields the incremental
    texts of the content_block_delta events and of no other event: the
    texts of its chunks, put together, are those texts put together;
    every chunk it yields has one candidate with a non-empty text and a
    canonical finish reason; a failure of the native stream ends it with
    the native message, and a failure to open the stream is an
    'Anthropic API error'. *)
Theorem anthropic_stream_preserves_text :
  forall createStream g c,
    (forall gen,
        Anthropic.generateContentStream createStream g c = Ok gen ->
        exists s,
          createStream (Anthropic.model g)
                       (Anthropic.convertGeminiMessagesToAnthropic c)
          = Ok s
          /\ streamText (Anthropic.yielded gen)
             = String.concat "" (map anthropic_delta (Anthropic.events s))
          /\ Forall delta_chunk (Anthropic.yielded gen)
          /\ length (Anthropic.yielded gen) <= length (Anthropic.events s)
          /\ Anthropic.thrown gen = Anthropic.sfailure s)
    /\ (forall e,
           createStream (Anthropic.model g)
                        (Anthropic.convertGeminiMessagesToAnthropic c)
           = Err e ->
           Anthropic.generateContentStream createStream g c
           = Err ("Anthropic API error: " ++ e)).
Proof.
  intros createStream g c. unfold Anthropic.generateContentStream.
  destruct (createStream _ _) as [s|e0]; split.
  - intros gen H. injection H as <-. exists s. split; [reflexivity|].
    cbn [Anthropic.convertAnthropicStreamToGemini Anthropic.yielded
           Anthropic.thrown].
    destruct (normalized Anthropic.eventToGemini anthropic_delta
                (fun a => proj1 (anthropic_event a))
                (fun a => proj1 (proj2 (anthropic_event a)))
                (fun a => proj2 (proj2 (anthropic_event a)))
                (Anthropic.events s)) as (Ht & Hs & Hn).
    auto.
  - discriminate.
  - discriminate.
  - intros e H. now injection H as <-.
Qed.

Lemma openai_stream_preserves_text_witness :
  exists s,
    Ok Sample.openai_stream = Ok s
    /\ streamText (OpenAI.yielded
                     (OpenAI.convertOpenAIStreamToGemini Sample.openai_stream))
       = String.concat "" (map openai_delta (OpenAI.chunks s))
    /\ Forall delta_chunk
         (OpenAI.yielded (OpenAI.convertOpenAIStreamToGemini Sample.openai_stream))
    /\ length (OpenAI.yielded
                 (OpenAI.convertOpenAIStreamToGemini Sample.openai_stream))
       <= length (OpenAI.chunks s)
    /\ OpenAI.thrown (OpenAI.convertOpenAIStreamToGemini Sample.openai_stream)
       = OpenAI.sfailure s.
Proof.
  exact (proj1 (openai_stream_preserves_text
                  (fun _ _ => Ok Sample.openai_stream)
                  Sample.openai (CString "hi"))
               _ eq_refl).
Defined.

Lemma anthropic_stream_preserves_text_witness :
  exists s,
    Ok Sample.anthropic_stream = Ok s
    /\ streamText
         (Anthropic.yielded
            (Anthropic.convertAnthropicStreamToGemini Sample.anthropic_stream))
       = String.concat "" (map anthropic_delta (Anthropic.events s))
    /\ Forall delta_chunk
         (Anthropic.yielded
            (Anthropic.convertAnthropicStreamToGemini Sample.anthropic_stream))
    /\ length (Anthropic.yielded
                 (Anthropic.convertAnthropicStreamToGemini
                    Sample.anthropic_stream))
       <= length (Anthropic.events s)
    /\ Anthropic.thrown
         (Anthropic.convertAnthropicStreamToGemini Sample.anthropic_stream)
       = Anthropic.sfailure s.
Proof.
  exact (proj1 (anthropic_stream_preserves_text
                  (fun _ _ => Ok Sample.anthropic_stream)
                  Sample.anthropic (CString "hi"))
               _ eq_refl).
Defined.

End NormalizerFacts.

(** ** The line-framed stream of the gateway, on any body *)

Module BodyFacts.
Import Genai Spec.

Lemma processLine_shape (parse : string -> option Api.ChatStreamChunk)
      (line : string) :
  Forall gateway_chunk (Api.processLine parse line)
  /\ length (Api.processLine parse line) <= 1.
Proof.
  unfold Api.processLine.
  destruct (Js.trim line =? ""); [split; [constructor | simpl; lia]|].
  destruct (Js.startsWith "data: " line); [|split; [constructor | simpl; lia]].
  destruct (parse _) as [data|]; [|split; [constructor | simpl; lia]].
  destruct (Js.truthy (Api.chunk data)) eqn:T;
    [|split; [constructor | simpl; lia]].
  split; [|simpl; lia].
  constructor; [|constructor].
  exists (Api.chunk data), (Api.finished data). now split.
Qed.

Lemma flat_map_shape {A B : Type} (f : A -> list B) (P : B -> Prop)
      (l : list A) :
  (forall a, Forall P (f a) /\ length (f a) <= 1) ->
  Forall P (flat_map f l) /\ length (flat_map f l) <= length l.
Proof.
  intros H. induction l as [|a l (IHs & IHn)]; [split; [constructor | simpl; lia]|].
  cbn [flat_map length]. destruct (H a) as (Hs & Hn).
  split; [apply Forall_app; now split | rewrite length_app; lia].
Qed.

Lemma length_removelast {A : Type} (l : list A) :
  length (removelast l) = length l - 1.
Proof.
  induction l as [|a [|b l] IH]; try reflexivity.
  change (removelast (a :: b :: l)) with (a :: removelast (b :: l)).
  cbn [length] in *. rewrite IH. lia.
Qed.

(** X21: what the gateway stream yields depends on the text of the
    body only, not on how the transport cuts it into blocks. *)
Theorem stream_independent_of_blocks
        (parse : string -> option Api.ChatStreamChunk)
        (blocks1 blocks2 : list string) :
  String.concat "" blocks1 = String.concat "" blocks2 ->
  Api.readLoop parse "" blocks1 = Api.readLoop parse "" blocks2.
Proof.
  intros H.
  rewrite !StreamFacts.readLoop_lines by reflexivity.
  cbn [append]. now rewrite H.
Qed.

Lemma stream_independent_of_blocks_witness :
  Api.readLoop Sample.parse "" (Api.reads Sample.reader)
  = Api.readLoop Sample.parse "" [Sample.text].
Proof.
  apply (stream_independent_of_blocks Sample.parse
           (Api.reads Sample.reader) [Sample.text]).
  reflexivity.
Defined.

(** X22: every chunk of the gateway stream, on any body and with any
    parser, has one candidate of role 'model' with a non-empty text, the
    finish reason STOP or FINISH_REASON_UNSPECIFIED and no usage; there are at
    most as many chunks as the body has line feeds. *)
Theorem stream_chunks_well_shaped
        (parse : string -> option Api.ChatStreamChunk) (blocks : list string) :
  Forall gateway_chunk (Api.readLoop parse "" blocks)
  /\ length (Api.readLoop parse "" blocks)
     <= length (Js.split_lf (String.concat "" blocks)) - 1.
Proof.
  rewrite StreamFacts.readLoop_lines by reflexivity. cbn [append].
  destruct (flat_map_shape (Api.processLine parse) gateway_chunk
              (removelast (Js.split_lf (String.concat "" blocks)))
              (processLine_shape parse)) as (Hs & Hn).
  split; [exact Hs|]. now rewrite length_removelast in Hn.
Qed.

(** X23: a frame that ends the body without a line feed after it is
    never emitted: the generator yields the chunks of the lines before it
    and stops. *)
Theorem unterminated_last_frame_lost
        (parse : string -> option Api.ChatStreamChunk)
        (items : list Item) (f : Frame) (blocks : list string) :
  Forall (admissible parse) items ->
  well_formed parse f ->
  String.concat "" blocks = wire (map line_of items) ++ frame_line f ->
  Api.readLoop parse "" blocks = chunks_of items.
Proof.
  intros Hitems Hf Htext.
  rewrite StreamFacts.readLoop_lines by reflexivity. cbn [append].
  rewrite Htext, JsFacts.split_lf_app.
  rewrite (JsFacts.split_lf_wire _ (StreamFacts.admissible_no_lf parse _ Hitems)).
  rewrite removelast_last, last_last. cbn [append].
  rewrite (JsFacts.split_lf_single (frame_line f))
    by (apply StreamFacts.frame_line_no_lf, Hf).
  rewrite removelast_last.
  now apply StreamFacts.lines_yield_chunks.
Qed.

Lemma unterminated_last_frame_lost_witness :
  Api.readLoop Sample.parse ""
    [wire (map line_of [Good (Sample.frame "Hel" false)])
       ++ frame_line (Sample.frame "lo" true)]
  = [chunk_of (Sample.frame "Hel" false)].
Proof.
  apply (unterminated_last_frame_lost Sample.parse
           [Good (Sample.frame "Hel" false)] (Sample.frame "lo" true)).
  - repeat constructor; vm_compute; reflexivity.
  - repeat split; vm_compute; reflexivity.
  - vm_compute. reflexivity.
Defined.

End BodyFacts.

(** ** From the environment to the adapter *)

Module ConfigFacts.
Import Factory.

(** Case analysis on an authType: each tag of the enum, then the rest. *)
Ltac by_tag a :=
  let s := fresh "tag" in
  destruct a as [s|];
  [ destruct (String.eqb_spec s AuthType.LOGIN_WITH_GOOGLE) as [->|?];
    [| destruct (String.eqb_spec s AuthType.CLOUD_SHELL) as [->|?];
       [| destruct (String.eqb_spec s AuthType.USE_GEMINI) as [->|?];
          [| destruct (String.eqb_spec s AuthType.USE_VERTEX_AI) as [->|?];
             [| destruct (String.eqb_spec s AuthType.USE_OPENAI) as [->|?];
                [| destruct (String.eqb_spec s AuthType.USE_ANTHROPIC) as [->|?];
                   [| destruct (String.eqb_spec s AuthType.USE_API) as [->|?]]]]]]]
  |].

Lemma or_undefined_some (o : option string) (k : string) :
  or_undefined o = Some k -> o = Some k /\ Js.truthy k = true.
Proof.
  unfold or_undefined. destruct o as [[|c s]|]; cbn; intros H;
    inversion H; now split.
Qed.

Lemma or_undefined_truthy (o : option string) :
  truthy (or_undefined o) = truthy o.
Proof. now destruct o as [[|c s]|]. Qed.

Lemma or_default_truthy (o : option string) (d : string) :
  Js.truthy d = true -> Js.truthy (or_default o d) = true.
Proof. intros H. now destruct o as [[|c s]|]. Qed.

Ltac eval_mode :=
  unfold createContentGeneratorConfig, tagged;
  cbn -[truthy or_undefined or_default or_opt];
  rewrite ?or_undefined_truthy.

Lemma truthy_or_undefined (o : option string) :
  truthy o = true -> or_undefined o = o.
Proof. unfold or_undefined. now intros ->. Qed.

Lemma config_login (getProxy sel : option string) (env : ProcessEnv) :
  createContentGeneratorConfig getProxy (Some AuthType.LOGIN_WITH_GOOGLE) sel env
  = base getProxy (Some AuthType.LOGIN_WITH_GOOGLE)
  /\ createContentGeneratorConfig getProxy (Some AuthType.CLOUD_SHELL) sel env
     = base getProxy (Some AuthType.CLOUD_SHELL).
Proof. split; reflexivity. Qed.

Lemma config_gemini (getProxy sel : option string) (env : ProcessEnv) :
  createContentGeneratorConfig getProxy (Some AuthType.USE_GEMINI) sel env
  = if truthy (GEMINI_API_KEY env)
    then mkConfig (GEMINI_API_KEY env) (Some false) (Some AuthType.USE_GEMINI)
                  getProxy None None None None None None None
    else base getProxy (Some AuthType.USE_GEMINI).
Proof.
  eval_mode. destruct (truthy (GEMINI_API_KEY env)) eqn:T; [|reflexivity].
  cbn. now rewrite (truthy_or_undefined _ T).
Qed.

Lemma config_vertex (getProxy sel : option string) (env : ProcessEnv) :
  createContentGeneratorConfig getProxy (Some AuthType.USE_VERTEX_AI) sel env
  = if truthy (GOOGLE_API_KEY env)
       || (truthy (GOOGLE_CLOUD_PROJECT env) && truthy (GOOGLE_CLOUD_LOCATION env))
    then mkConfig (or_undefined (GOOGLE_API_KEY env)) (Some true)
                  (Some AuthType.USE_VERTEX_AI)
                  getProxy None None None None None None None
    else base getProxy (Some AuthType.USE_VERTEX_AI).
Proof.
  eval_mode.
  now destruct (truthy (GOOGLE_API_KEY env)
                || (truthy (GOOGLE_CLOUD_PROJECT env)
                    && truthy (GOOGLE_CLOUD_LOCATION env))).
Qed.

Lemma config_openai (getProxy sel : option string) (env : ProcessEnv) :
  createContentGeneratorConfig getProxy (Some AuthType.USE_OPENAI) sel env
  = if truthy (OPENAI_API_KEY env)
    then mkConfig None None (Some AuthType.USE_OPENAI) getProxy
                  (OPENAI_API_KEY env)
                  (Some (or_default (or_opt sel (OPENAI_MODEL env)) "gpt-4o"))
                  None None None None None
    else base getProxy (Some AuthType.USE_OPENAI).
Proof.
  eval_mode. destruct (truthy (OPENAI_API_KEY env)) eqn:T; [|reflexivity].
  cbn. now rewrite (truthy_or_undefined _ T).
Qed.

Lemma config_anthropic (getProxy sel : option string) (env : ProcessEnv) :
  createContentGeneratorConfig getProxy (Some AuthType.USE_ANTHROPIC) sel env
  = if truthy (ANTHROPIC_API_KEY env)
    then mkConfig None None (Some AuthType.USE_ANTHROPIC) getProxy None None
                  (ANTHROPIC_API_KEY env)
                  (Some (or_default (or_opt sel (ANTHROPIC_MODEL env))
                                    "claude-3-5-sonnet-20241022"))
                  None None None
    else base getProxy (Some AuthType.USE_ANTHROPIC).
Proof.
  eval_mode. destruct (truthy (ANTHROPIC_API_KEY env)) eqn:T; [|reflexivity].
  cbn. now rewrite (truthy_or_undefined _ T).
Qed.

Lemma config_api (getProxy sel : option string) (env : ProcessEnv) :
  createContentGeneratorConfig getProxy (Some AuthType.USE_API) sel env
  = if truthy (API_ENDPOINT env) && truthy (API_AUTH_TOKEN env)
    then mkConfig None None (Some AuthType.USE_API) getProxy None None None None
                  (API_ENDPOINT env) (API_AUTH_TOKEN env)
                  (Some (or_default (or_opt sel (API_MODEL env)) "gpt-4o"))
    else base getProxy (Some AuthType.USE_API).
Proof.
  eval_mode.
  destruct (truthy (API_ENDPOINT env)) eqn:T1;
    destruct (truthy (API_AUTH_TOKEN env)) eqn:T2; try reflexivity.
  cbn. now rewrite (truthy_or_undefined _ T1), (truthy_or_undefined _ T2).
Qed.

Lemma config_other (getProxy a sel : option string) (env : ProcessEnv) :
  recognized a = false ->
  createContentGeneratorConfig getProxy a sel env = base getProxy a.
Proof.
  unfold recognized, createContentGeneratorConfig.
  destruct (tagged a AuthType.LOGIN_WITH_GOOGLE);
    destruct (tagged a AuthType.USE_GEMINI);
    destruct (tagged a AuthType.USE_VERTEX_AI);
    destruct (tagged a AuthType.CLOUD_SHELL);
    destruct (tagged a AuthType.USE_OPENAI);
    destruct (tagged a AuthType.USE_ANTHROPIC);
    destruct (tagged a AuthType.USE_API); cbn; intros H;
    try discriminate H; reflexivity.
Qed.

Lemma truthy_some (o : option string) (k : string) :
  truthy o = true -> o = Some k -> Js.truthy k = true.
Proof. now intros T ->. Qed.

(** Every configuration is the one of a mode, or the bare one. *)
Ltac by_config a :=
  by_tag a;
  [ rewrite (proj1 (config_login _ _ _))
  | rewrite (proj2 (config_login _ _ _))
  | rewrite config_gemini
  | rewrite config_vertex
  | rewrite config_openai
  | rewrite config_anthropic
  | rewrite config_api
  | rewrite config_other
      by (unfold recognized, tagged;
          repeat match goal with
                 | N : ?x <> ?y |- context [String.eqb ?x ?y] =>
                     rewrite (proj2 (String.eqb_neq x y) N)
                 end; reflexivity)
  | rewrite config_other by reflexivity ].

(** X24: createContentGeneratorConfig copies the authType and the proxy
    and fills a credential only in the mode it belongs to and only from
    its own environment variable, never with an empty string: the OpenAI
    key in the OpenAI mode, the Anthropic key in the Anthropic mode, the
    endpoint and the token (always together) in the API mode, the API key
    in the Gemini mode (GEMINI_API_KEY) or the Vertex AI mode
    (GOOGLE_API_KEY). *)
Theorem config_credentials_isolated
        (getProxy a sel : option string) (env : ProcessEnv) :
  authType (createContentGeneratorConfig getProxy a sel env) = a
  /\ proxy (createContentGeneratorConfig getProxy a sel env) = getProxy
  /\ (forall k,
         openaiApiKey (createContentGeneratorConfig getProxy a sel env) = Some k ->
         a = Some AuthType.USE_OPENAI
         /\ OPENAI_API_KEY env = Some k /\ Js.truthy k = true)
  /\ (forall k,
         anthropicApiKey (createContentGeneratorConfig getProxy a sel env) = Some k ->
         a = Some AuthType.USE_ANTHROPIC
         /\ ANTHROPIC_API_KEY env = Some k /\ Js.truthy k = true)
  /\ (forall k,
         apiEndpoint (createContentGeneratorConfig getProxy a sel env) = Some k
         \/ apiAuthToken (createContentGeneratorConfig getProxy a sel env) = Some k ->
         a = Some AuthType.USE_API
         /\ truthy (API_ENDPOINT env) = true
         /\ truthy (API_AUTH_TOKEN env) = true
         /\ apiEndpoint (createContentGeneratorConfig getProxy a sel env)
            = API_ENDPOINT env
         /\ apiAuthToken (createContentGeneratorConfig getProxy a sel env)
            = API_AUTH_TOKEN env)
  /\ (forall k,
         apiKey (createContentGeneratorConfig getProxy a sel env) = Some k ->
         Js.truthy k = true
         /\ ((a = Some AuthType.USE_GEMINI /\ GEMINI_API_KEY env = Some k)
             \/ (a = Some AuthType.USE_VERTEX_AI /\ GOOGLE_API_KEY env = Some k))).
Proof.
  by_config a;
    repeat match goal with
           | |- context [if ?b then _ else _] =>
               let T := fresh "T" in destruct b eqn:T
           end;
    cbn [base authType proxy openaiApiKey anthropicApiKey apiEndpoint
              apiAuthToken apiKey];
    repeat match goal with |- _ /\ _ => split end;
    try reflexivity;
    intros k H; try (destruct H as [H|H]); try discriminate H;
    try (apply andb_prop in T; destruct T as (T1 & T2));
    try (apply or_undefined_some in H; destruct H as (H & Hk));
    repeat split; eauto using truthy_some.
Qed.

Lemma config_credentials_isolated_witness :
  openaiApiKey
    (createContentGeneratorConfig None (Some AuthType.USE_ANTHROPIC) None
       (mkEnv None None None None (Some "sk-openai") None (Some "sk-ant")
              None None None None))
  = None.
Proof.
  destruct (openaiApiKey
              (createContentGeneratorConfig None (Some AuthType.USE_ANTHROPIC) None
                 (mkEnv None None None None (Some "sk-openai") None
                        (Some "sk-ant") None None None None))) as [k|] eqn:E;
    [|reflexivity].
  destruct (proj1 (proj2 (proj2 (config_credentials_isolated _ _ _ _))) k E)
    as (Hmode & _).
  discriminate Hmode.
Defined.

Lemma or_default_again (o : option string) (d : string) :
  or_default (Some (or_default o d)) d = or_default o d.
Proof. destruct o as [[|c s]|]; cbn; try reflexivity; now destruct d. Qed.

Section Composition.
Variable CodeAssistServer : Type.
Variable createCodeAssist : Headers -> string -> Result CodeAssistServer.

Local Abbreviation create := (createContentGenerator createCodeAssist).

(** X25: built from the environment, the OpenAI, Anthropic and API modes
    give their adapter exactly when their variables are set and not
    empty (the key; the key; the endpoint and the token), with the key
    of the environment and the model taken from the selected model, else
    from the model variable of the provider, else the default model; in
    every other case the factory raises the error of the mode. *)
Theorem keyed_modes_from_env
        (getProxy sel : option string) (env : ProcessEnv) (amb : Ambient) :
  create (createContentGeneratorConfig getProxy (Some AuthType.USE_OPENAI) sel env)
         amb
  = (if truthy (OPENAI_API_KEY env)
     then Ok (LoggingContentGenerator
                (OpenAIContentGenerator
                   (OpenAI.mkGenerator
                      (Js.str_of_undefined (OPENAI_API_KEY env))
                      (or_default (or_opt sel (OPENAI_MODEL env)) "gpt-4o"))))
     else Err "OpenAI API key is required for OpenAI authentication")
  /\ create (createContentGeneratorConfig getProxy (Some AuthType.USE_ANTHROPIC)
                                          sel env) amb
     = (if truthy (ANTHROPIC_API_KEY env)
        then Ok (LoggingContentGenerator
                   (AnthropicContentGenerator
                      (Anthropic.mkGenerator
                         (Js.str_of_undefined (ANTHROPIC_API_KEY env))
                         (or_default (or_opt sel (ANTHROPIC_MODEL env))
                                     "claude-3-5-sonnet-20241022"))))
        else Err "Anthropic API key is required for Anthropic authentication")
  /\ create (createContentGeneratorConfig getProxy (Some AuthType.USE_API) sel env)
            amb
     = (if truthy (API_ENDPOINT env) && truthy (API_AUTH_TOKEN env)
        then Ok (LoggingContentGenerator
                   (ApiContentGenerator
                      (Api.mkGenerator
                         (Js.str_of_undefined (API_ENDPOINT env))
                         (Js.str_of_undefined (API_AUTH_TOKEN env))
                         (or_default (or_opt sel (API_MODEL env)) "gpt-4o"))))
        else Err "API endpoint and auth token are required for API-based authentication").
Proof.
  rewrite config_openai, config_anthropic, config_api.
  split; [|split].
  - destruct (OPENAI_API_KEY env) as [[|c k]|]; try reflexivity.
    unfold createContentGenerator. cbn -[or_default or_opt].
    now rewrite or_default_again.
  - destruct (ANTHROPIC_API_KEY env) as [[|c k]|]; try reflexivity.
    unfold createContentGenerator. cbn -[or_default or_opt].
    now rewrite or_default_again.
  - destruct (API_ENDPOINT env) as [[|c k]|]; try reflexivity;
      destruct (API_AUTH_TOKEN env) as [[|c' k']|]; try reflexivity.
    unfold createContentGenerator. cbn -[or_default or_opt].
    now rewrite or_default_again.
Qed.

(** X26: an adapter the factory returns never holds an empty
    credential or an empty model: the OpenAI and Anthropic adapters have
    a non-empty key and model, the gateway adapter a non-empty endpoint,
    token and model; the Google client is never given the empty string
    as its key and its wrapper is named 'vertex-ai' or 'gemini-2.5-pro'. *)
Theorem constructed_adapters_have_credentials
        (config : ContentGeneratorConfig) (env : Ambient)
        (g : ContentGenerator CodeAssistServer) :
  create config env = Ok g ->
  match wrapped_adapter g with
  | CodeAssist _ => True
  | GoogleGenAIWrapper client modelName =>
      gApiKey client <> Some ""
      /\ (modelName = "vertex-ai" \/ modelName = "gemini-2.5-pro")
  | OpenAIContentGenerator a =>
      Js.truthy (OpenAI.apiKey a) = true /\ Js.truthy (OpenAI.model a) = true
  | AnthropicContentGenerator a =>
      Js.truthy (Anthropic.apiKey a) = true
      /\ Js.truthy (Anthropic.model a) = true
  | ApiContentGenerator a =>
      Js.truthy (Api.apiEndpoint a) = true
      /\ Js.truthy (Api.authToken a) = true
      /\ Js.truthy (Api.model a) = true
  end.
Proof.
  unfold createContentGenerator, tagged.
  by_tag (authType config); cbn -[or_default];
    repeat match goal with
           | N : ?x <> ?y |- context [String.eqb ?x ?y] =>
               rewrite (proj2 (String.eqb_neq x y) N)
           end;
    cbn -[or_default];
    try discriminate.
  - destruct (createCodeAssist _ _); intros H; inversion H. exact I.
  - destruct (createCodeAssist _ _); intros H; inversion H. exact I.
  - intros H; inversion H. cbn. split.
    + destruct (apiKey config) as [[|c k]|]; cbn; discriminate.
    + destruct (vertexai config) as [[|]|]; auto.
  - intros H; inversion H. cbn. split.
    + destruct (apiKey config) as [[|c k]|]; cbn; discriminate.
    + destruct (vertexai config) as [[|]|]; auto.
  - destruct (openaiApiKey config) as [[|c k]|]; cbn -[or_default];
      intros H; inversion H. cbn -[or_default].
    split; [reflexivity | now apply or_default_truthy].
  - destruct (anthropicApiKey config) as [[|c k]|]; cbn -[or_default];
      intros H; inversion H. cbn -[or_default].
    split; [reflexivity | now apply or_default_truthy].
  - destruct (apiEndpoint config) as [[|c k]|]; cbn -[or_default];
      try discriminate;
      destruct (apiAuthToken config) as [[|c' k']|]; cbn -[or_default];
      intros H; inversion H. cbn -[or_default].
    repeat split. now apply or_default_truthy.
Qed.

(** X27: built from the environment, the two API key modes of Google
    never raise.  The Gemini mode hands the client the key of
    GEMINI_API_KEY, or no key at all, and names the wrapper
    'gemini-2.5-pro'; the Vertex AI mode names it 'vertex-ai' and sets
    vertexai only when GOOGLE_API_KEY, or both the project and the
    location, are set, and otherwise builds the same client as the Gemini
    mode without a key.  The client always gets the User-Agent header,
    and the installation id exactly when usage statistics are enabled. *)
Theorem google_modes_from_env
        (getProxy sel : option string) (env : ProcessEnv) (amb : Ambient) :
  exists headers,
    In ("User-Agent",
        "GeminiCLI/" ++ or_default (CLI_VERSION amb) (version amb)
          ++ " (" ++ platform amb ++ "; " ++ arch amb ++ ")") headers
    /\ (In ("x-gemini-api-privileged-user-id", installationId amb) headers
        <-> usageStatisticsEnabled amb = Some true)
    /\ create (createContentGeneratorConfig getProxy (Some AuthType.USE_GEMINI)
                                            sel env) amb
       = Ok (LoggingContentGenerator
               (GoogleGenAIWrapper
                  (mkGoogle (or_undefined (GEMINI_API_KEY env))
                            (if truthy (GEMINI_API_KEY env)
                             then Some false else None)
                            headers)
                  "gemini-2.5-pro"))
    /\ create (createContentGeneratorConfig getProxy (Some AuthType.USE_VERTEX_AI)
                                            sel env) amb
       = Ok (LoggingContentGenerator
               (if truthy (GOOGLE_API_KEY env)
                   || (truthy (GOOGLE_CLOUD_PROJECT env)
                       && truthy (GOOGLE_CLOUD_LOCATION env))
                then GoogleGenAIWrapper
                       (mkGoogle (or_undefined (GOOGLE_API_KEY env)) (Some true)
                                 headers)
                       "vertex-ai"
                else GoogleGenAIWrapper (mkGoogle None None headers)
                                        "gemini-2.5-pro")).
Proof.
  rewrite config_gemini, config_vertex.
  eexists. split; [|split; [|split]].
  3:{ unfold createContentGenerator.
      destruct (GEMINI_API_KEY env) as [[|c k]|]; cbn -[append]; reflexivity. }
  3:{ unfold createContentGenerator.
      destruct (truthy (GOOGLE_API_KEY env)
                || (truthy (GOOGLE_CLOUD_PROJECT env)
                    && truthy (GOOGLE_CLOUD_LOCATION env))); cbn -[append];
        [destruct (GOOGLE_API_KEY env) as [[|c k]|]|]; reflexivity. }
  - destruct (usageStatisticsEnabled amb) as [[|]|]; cbn -[append]; auto.
  - destruct (usageStatisticsEnabled amb) as [[|]|]; cbn -[append];
      split; intros H; try reflexivity; try discriminate H; auto;
      destruct H as [H|H]; try discriminate H; try contradiction;
      destruct H as [H|H]; try discriminate H; contradiction.
Qed.

End Composition.

Lemma constructed_adapters_have_credentials_witness :
  Js.truthy "sk-live" = true /\ Js.truthy "gpt-4o" = true.
Proof.
  exact (constructed_adapters_have_credentials
           unit Sample.no_code_assist
           (mkConfig None None (Some AuthType.USE_OPENAI) None
                     (Some "sk-live") None None None None None None)
           Sample.ambient
           (LoggingContentGenerator
              (OpenAIContentGenerator (OpenAI.mkGenerator "sk-live" "gpt-4o")))
           eq_refl).
Defined.

End ConfigFacts.
